(** * Ocean scene: render loop, asset callbacks and mount/unmount lifecycle

    A shallow embedding of [Ocean.js] (the plain-DOM build) and of its React
    variant [Ocean copy.jsx].  JavaScript numbers are kept abstract behind the
    [JSNumber] interface, which has two instances: IEEE-754 binary64 (what the
    program computes with) and the real numbers (the arithmetic in which the
    closed formulas of the design document are written). *)

From Stdlib Require Import List ZArith QArith Qreals Reals Lra Lia Bool.
From Stdlib Require Import Uint63 PrimFloat.
Import ListNotations.

Close Scope R_scope.
Close Scope Q_scope.
Local Open Scope list_scope.

(** ** JavaScript numbers *)

Class JSNumber (num : Type) : Type := {
  lit : Q -> num;                 (* a decimal literal of the source text *)
  nadd : num -> num -> num;
  nsub : num -> num -> num;
  nmul : num -> num -> num;
  ndiv : num -> num -> num;
  nneg : num -> num;
  Math_sin : num -> num;
  Math_cos : num -> num;
  Math_sqrt : num -> num;
  Math_PI : num;
  truthy : num -> bool            (* ToBoolean: false on 0 and NaN *)
}.

Arguments lit {num JSNumber} _%_Q.

Declare Scope js_scope.
Delimit Scope js_scope with js.
Infix "+" := nadd : js_scope.
Infix "-" := nsub : js_scope.
Infix "*" := nmul : js_scope.
Infix "/" := ndiv : js_scope.
Notation "- a" := (nneg a) : js_scope.

(** Binary64 instance.  A decimal literal [m / 10^e] is the correctly rounded
    quotient of two exactly representable integers, which is what the
    JavaScript lexer produces.  [Math.PI] is the double nearest to pi.
    [Math.sin] and [Math.cos] are implementation-approximated in ECMAScript,
    so they stay parameters. *)

Definition float_of_Z (n : Z) : float :=
  match n with
  | Z0 => PrimFloat.zero
  | Zpos _ => PrimFloat.of_uint63 (Uint63.of_Z n)
  | Zneg p => PrimFloat.opp (PrimFloat.of_uint63 (Uint63.of_Z (Zpos p)))
  end.

Definition float_lit (q : Q) : float :=
  PrimFloat.div (float_of_Z (Qnum q)) (float_of_Z (Zpos (Qden q))).

Definition float_truthy (f : float) : bool :=
  negb (PrimFloat.eqb f PrimFloat.zero || PrimFloat.is_nan f).

Definition Float64 (fsin fcos : float -> float) : JSNumber float := {|
  lit := float_lit;
  nadd := PrimFloat.add;
  nsub := PrimFloat.sub;
  nmul := PrimFloat.mul;
  ndiv := PrimFloat.div;
  nneg := PrimFloat.opp;
  Math_sin := fsin;
  Math_cos := fcos;
  Math_sqrt := PrimFloat.sqrt;
  Math_PI := 0x1.921fb54442d18p+1%float;
  truthy := float_truthy
|}.

(** Exact instance over the reals. *)

Definition real_truthy (r : R) : bool :=
  if Req_dec_T r 0%R then false else true.

Definition Exact : JSNumber R := {|
  lit := Q2R;
  nadd := Rplus;
  nsub := Rminus;
  nmul := Rmult;
  ndiv := Rdiv;
  nneg := Ropp;
  Math_sin := sin;
  Math_cos := cos;
  Math_sqrt := R_sqrt.sqrt;
  Math_PI := PI;
  truthy := real_truthy
|}.

(** ** Outcomes of a call: normal return or an uncaught exception *)

Inductive Undefined : Type :=
| of_camera
| of_scene.

Inductive JSError : Type :=
| TypeError (reading : Undefined).

Inductive Outcome (A : Type) : Type :=
| Returned (a : A)
| Threw (e : JSError).

Arguments Returned {A} a.
Arguments Threw {A} e.

Definition bind {A B : Type} (o : Outcome A) (k : A -> Outcome B) : Outcome B :=
  match o with
  | Returned a => k a
  | Threw e => Threw e
  end.

(** ** Identity of DOM listeners and of scene-graph nodes *)

(** A listener is a function object; two closures created by two runs of the
    same code are different listeners.  [addEventListener] ignores a listener
    that is already registered for the event (DOM). *)
Definition Listener : Type := nat.

Definition addEventListener (l : Listener) (ls : list Listener) : list Listener :=
  if existsb (Nat.eqb l) ls then ls else ls ++ [l].

Definition removeEventListener (l : Listener) (ls : list Listener) : list Listener :=
  filter (fun k => negb (Nat.eqb l k)) ls.

Inductive Node : Type :=
| WaterNode
| SkyNode
| ModelNode (uuid : nat).

Definition Node_eqb (a b : Node) : bool :=
  match a, b with
  | WaterNode, WaterNode => true
  | SkyNode, SkyNode => true
  | ModelNode i, ModelNode j => Nat.eqb i j
  | _, _ => false
  end.

(** Modelled from the spec: the scene graph container is the engine's, not
    under src/.  This is three.js [Object3D.add]: the object leaves its former
    parent and is pushed at the end of the new parent's children. *)
Definition detach (n : Node) (ch : list Node) : list Node :=
  filter (fun k => negb (Node_eqb n k)) ch.

Definition attach (n : Node) (ch : list Node) : list Node :=
  detach n ch ++ [n].

Inductive Wrapping : Type :=
| ClampToEdgeWrapping
| RepeatWrapping.

Inductive Load : Type :=
| NotStarted
| Pending
| Loaded
| Failed.

Inductive Element : Type :=
| Canvas (owner : Listener)
| Foreign.

Definition Element_is (owner : Listener) (e : Element) : bool :=
  match e with
  | Canvas o => Nat.eqb o owner
  | Foreign => false
  end.

(** ** Data model *)

Section Ocean.

Context {num : Type} {JS : JSNumber num}.
Local Open Scope js_scope.

Record Vector3 : Type := mkVector3 { vx : num; vy : num; vz : num }.

(** Modelled from the spec: the engine's vector helpers are not under src/.
    These are [MathUtils.degToRad] and the [Vector3] methods the program calls,
    as three.js defines them; with radius 1, [setFromSphericalCoords] is the
    "unit sun-direction vector derived from fixed elevation/azimuth angles". *)

Definition degToRad (degrees : num) : num := degrees * (Math_PI / lit 180).

Definition setFromSphericalCoords (radius phi theta : num) : Vector3 :=
  let sinPhiRadius := Math_sin phi * radius in
  mkVector3 (sinPhiRadius * Math_sin theta)
            (Math_cos phi * radius)
            (sinPhiRadius * Math_cos theta).

Definition length (v : Vector3) : num :=
  Math_sqrt (vx v * vx v + vy v * vy v + vz v * vz v).

Definition multiplyScalar (k : num) (v : Vector3) : Vector3 :=
  mkVector3 (vx v * k) (vy v * k) (vz v * k).

Definition divideScalar (k : num) (v : Vector3) : Vector3 :=
  multiplyScalar (lit 1 / k) v.

Definition normalize (v : Vector3) : Vector3 :=
  divideScalar (if truthy (length v) then length v else lit 1) v.

Record Object3D : Type := mkObject3D {
  uuid : nat;
  position : Vector3;
  rotation : Vector3;
  scale : Vector3
}.

Record Camera : Type := mkCamera {
  cposition : Vector3;
  aspect : num;
  lookingAt : option Vector3
}.

Record Texture : Type := mkTexture { wrapS : Wrapping; wrapT : Wrapping }.

Record Water : Type := mkWater {
  time_value : num;                (* material.uniforms['time'].value *)
  sunDirection : Vector3;          (* material.uniforms['sunDirection'].value *)
  waterNormals : Texture;
  wrotation_x : num
}.

Record Sky : Type := mkSky {
  sunPosition : Vector3;           (* material.uniforms['sunPosition'].value *)
  sky_scale : num;
  turbidity : num;
  rayleigh : num;
  mieCoefficient : num;
  mieDirectionalG : num
}.

Record Scene : Type := mkScene {
  children : list Node;
  environment : option nat         (* texture of a prefiltered render target *)
}.

Record Renderer : Type := mkRenderer {
  size : num * num;
  animationLoop : bool;            (* setAnimationLoop(animate) in force *)
  toneMappingExposure : num
}.

Record Frame : Type := mkFrame {
  drawn : list Node;
  drawn_model : option Object3D;
  drawn_time : num;
  drawn_camera : Camera
}.

(** What the program asks of the GPU side of the engine, in call order. *)
Inductive GpuCall : Type :=
| Draw (f : Frame)                           (* renderer.render(scene, camera) *)
| FromScene (target : nat) (env : list Node) (* pmremGenerator.fromScene(sceneEnv) *)
| DisposeTarget (target : nat)               (* renderTarget.dispose() *)
| DisposeRenderer                            (* renderer.dispose() *)
| ForceContextLoss                           (* renderer.forceContextLoss() *)
| DisposeGeometry (n : Node)                 (* object.geometry.dispose() *)
| DisposeMaterial (n : Node)                 (* object.material.dispose(), each sub-material *)
| DisposeWithin (n : Node).                  (* the traversal of the tree below n: for each
                                                object of it, geometry.dispose() if it has a
                                                geometry, and dispose() of its material, or
                                                of each material of the array, if it has one *)

(** The variables [init] assigns, together with the locals its closures keep
    alive ([sky], [sceneEnv], [renderTarget], the two loads in flight). *)
Record Built : Type := mkBuilt {
  camera : Camera;
  scene : Scene;
  renderer : Renderer;
  water : Water;
  sun : Vector3;
  sky : Sky;
  sceneEnv : list Node;
  renderTarget : option nat;
  targets : nat;                   (* render targets generated so far *)
  textureLoad : Load;
  modelLoad : Load;
  gpu : list GpuCall
}.

(** The [let]/[const] variables of the module (of the effect, in the React
    variant).  [built] is [None] while [camera], [scene], [renderer], [water]
    and [sun] are still [undefined]. *)
Record Session : Type := mkSession {
  built : option Built;
  modelT : option Object3D;
  mouseX : num;
  windowHalfX : num;
  self : Listener                  (* identity of this instance's handler closures *)
}.

Inductive Message : Type :=
| NoContainer            (* 'No container element with id "three" found.' *)
| ErrorLoadingTexture    (* 'Error loading texture:' url *)
| ErrorLoadingNormals    (* 'Error loading water normal texture:' error *)
| ErrorLoadingGLTF.      (* 'Error loading GLTF model:' error *)

Inductive LogEntry : Type :=
| ConsoleError (m : Message)
| ConsoleLog (percentLoaded : num).

Record Container : Type := mkContainer {
  elements : list Element;         (* container.children *)
  clientWidth : num;
  clientHeight : num
}.

Record World : Type := mkWorld {
  container : option Container;    (* document.getElementById('three') *)
  innerWidth : num;                (* window.innerWidth *)
  mousemove : list Listener;       (* 'mousemove' listeners on document *)
  resize : list Listener;          (* 'resize' listeners on window *)
  console : list LogEntry;
  closures : nat                   (* function objects allocated so far *)
}.

(** *** Field updates *)

Definition set_camera (v : Camera) (b : Built) : Built :=
  mkBuilt v (scene b) (renderer b) (water b) (sun b) (sky b) (sceneEnv b)
          (renderTarget b) (targets b) (textureLoad b) (modelLoad b) (gpu b).
Definition set_scene (v : Scene) (b : Built) : Built :=
  mkBuilt (camera b) v (renderer b) (water b) (sun b) (sky b) (sceneEnv b)
          (renderTarget b) (targets b) (textureLoad b) (modelLoad b) (gpu b).
Definition set_renderer (v : Renderer) (b : Built) : Built :=
  mkBuilt (camera b) (scene b) v (water b) (sun b) (sky b) (sceneEnv b)
          (renderTarget b) (targets b) (textureLoad b) (modelLoad b) (gpu b).
Definition set_water (v : Water) (b : Built) : Built :=
  mkBuilt (camera b) (scene b) (renderer b) v (sun b) (sky b) (sceneEnv b)
          (renderTarget b) (targets b) (textureLoad b) (modelLoad b) (gpu b).
Definition set_sun (v : Vector3) (b : Built) : Built :=
  mkBuilt (camera b) (scene b) (renderer b) (water b) v (sky b) (sceneEnv b)
          (renderTarget b) (targets b) (textureLoad b) (modelLoad b) (gpu b).
Definition set_sky (v : Sky) (b : Built) : Built :=
  mkBuilt (camera b) (scene b) (renderer b) (water b) (sun b) v (sceneEnv b)
          (renderTarget b) (targets b) (textureLoad b) (modelLoad b) (gpu b).
Definition set_sceneEnv (v : list Node) (b : Built) : Built :=
  mkBuilt (camera b) (scene b) (renderer b) (water b) (sun b) (sky b) v
          (renderTarget b) (targets b) (textureLoad b) (modelLoad b) (gpu b).
Definition set_renderTarget (v : option nat) (b : Built) : Built :=
  mkBuilt (camera b) (scene b) (renderer b) (water b) (sun b) (sky b) (sceneEnv b)
          v (targets b) (textureLoad b) (modelLoad b) (gpu b).
Definition set_targets (v : nat) (b : Built) : Built :=
  mkBuilt (camera b) (scene b) (renderer b) (water b) (sun b) (sky b) (sceneEnv b)
          (renderTarget b) v (textureLoad b) (modelLoad b) (gpu b).
Definition set_textureLoad (v : Load) (b : Built) : Built :=
  mkBuilt (camera b) (scene b) (renderer b) (water b) (sun b) (sky b) (sceneEnv b)
          (renderTarget b) (targets b) v (modelLoad b) (gpu b).
Definition set_modelLoad (v : Load) (b : Built) : Built :=
  mkBuilt (camera b) (scene b) (renderer b) (water b) (sun b) (sky b) (sceneEnv b)
          (renderTarget b) (targets b) (textureLoad b) v (gpu b).
Definition call (c : list GpuCall) (b : Built) : Built :=
  mkBuilt (camera b) (scene b) (renderer b) (water b) (sun b) (sky b) (sceneEnv b)
          (renderTarget b) (targets b) (textureLoad b) (modelLoad b) (gpu b ++ c).

Definition set_built (v : option Built) (s : Session) : Session :=
  mkSession v (modelT s) (mouseX s) (windowHalfX s) (self s).
Definition set_modelT (v : option Object3D) (s : Session) : Session :=
  mkSession (built s) v (mouseX s) (windowHalfX s) (self s).
Definition set_mouseX (v : num) (s : Session) : Session :=
  mkSession (built s) (modelT s) v (windowHalfX s) (self s).

Definition set_container (v : option Container) (w : World) : World :=
  mkWorld v (innerWidth w) (mousemove w) (resize w) (console w) (closures w).
Definition set_innerWidth (v : num) (w : World) : World :=
  mkWorld (container w) v (mousemove w) (resize w) (console w) (closures w).
Definition set_mousemove (v : list Listener) (w : World) : World :=
  mkWorld (container w) (innerWidth w) v (resize w) (console w) (closures w).
Definition set_resize (v : list Listener) (w : World) : World :=
  mkWorld (container w) (innerWidth w) (mousemove w) v (console w) (closures w).
Definition log (e : LogEntry) (w : World) : World :=
  mkWorld (container w) (innerWidth w) (mousemove w) (resize w) (console w ++ [e]) (closures w).
Definition allocate (w : World) : World :=
  mkWorld (container w) (innerWidth w) (mousemove w) (resize w) (console w) (S (closures w)).

(** ** The per-frame function (Ocean.js 152-173, Ocean copy.jsx 357-379) *)

Definition set_x (v : num) (p : Vector3) : Vector3 := mkVector3 v (vy p) (vz p).
Definition set_y (v : num) (p : Vector3) : Vector3 := mkVector3 (vx p) v (vz p).
Definition set_z (v : num) (p : Vector3) : Vector3 := mkVector3 (vx p) (vy p) v.

(** The body of [if (modelT) { ... }]. *)
Definition float_model (time : num) (m : Object3D) : Object3D :=
  let m1 := mkObject3D (uuid m) (set_y (Math_sin time * lit 20 + lit 5) (position m))
                       (rotation m) (scale m) in
  let m2 := mkObject3D (uuid m1) (position m1) (set_z (time * lit 0.5) (rotation m1)) (scale m1) in
  let m3 := mkObject3D (uuid m2) (position m2) (set_y (time * lit 0.51) (rotation m2)) (scale m2) in
  mkObject3D (uuid m3) (position m3) (set_x (time * lit 0.51) (rotation m3)) (scale m3).

(** [now] is the reading of [performance.now()]. *)
Definition render (now : num) (s : Session) : Outcome Session :=
  let time := now * lit 0.001 in
  match built s with
  | None => Threw (TypeError of_camera)
  | Some b =>
      let cam := camera b in
      let cam := mkCamera
                   (set_x (vx (cposition cam)
                           + (mouseX s * lit 0.015 - vx (cposition cam)) * lit 0.05)
                          (cposition cam))
                   (aspect cam) (lookingAt cam) in
      let cam := mkCamera (cposition cam) (aspect cam)
                          (Some (mkVector3 (lit 0) (lit 16) (lit 0))) in
      let model := match modelT s with
                   | Some m => Some (float_model time m)
                   | None => None
                   end in
      let wat := water b in
      let wat := mkWater (time_value wat + lit 1.0 / lit 40.0)
                         (sunDirection wat) (waterNormals wat) (wrotation_x wat) in
      let b := set_water wat (set_camera cam b) in
      let b := call [Draw (mkFrame (children (scene b)) model (time_value wat) cam)] b in
      Returned (set_modelT model (set_built (Some b) s))
  end.

Definition animate (now : num) (s : Session) : Outcome Session := render now s.

(** ** Pointer handler (Ocean.js 176-178, Ocean copy.jsx 349-351) *)

Definition onDocumentMouseMove (clientX : num) (s : Session) : Session :=
  set_mouseX ((clientX - windowHalfX s) * lit 2) s.

(** ** Resize handler *)

Definition fit (c : Container) (b : Built) : Built :=
  let cam := camera b in
  let b := set_camera (mkCamera (cposition cam) (clientWidth c / clientHeight c) (lookingAt cam)) b in
  set_renderer (mkRenderer (clientWidth c, clientHeight c)
                           (animationLoop (renderer b)) (toneMappingExposure (renderer b))) b.

(** Ocean.js 181-187: the container is looked up again on every call. *)
Definition onWindowResize (w : World) (s : Session) : Outcome Session :=
  match container w with
  | None => Returned s
  | Some c =>
      match built s with
      | None => Threw (TypeError of_camera)
      | Some b => Returned (set_built (Some (fit c b)) s)
      end
  end.

(** ** Sun and lighting environment (Ocean.js 106-120, Ocean copy.jsx 295-310) *)

Definition updateSun (b : Built) : Built :=
  let phi := degToRad (lit 90 - lit 2) in
  let theta := degToRad (lit 180) in
  let b := set_sun (setFromSphericalCoords (lit 1) phi theta) b in
  let sk := sky b in
  let b := set_sky (mkSky (sun b) (sky_scale sk) (turbidity sk) (rayleigh sk)
                          (mieCoefficient sk) (mieDirectionalG sk)) b in
  let wat := water b in
  let b := set_water (mkWater (time_value wat) (normalize (sun b))
                              (waterNormals wat) (wrotation_x wat)) b in
  let b := match renderTarget b with
           | Some old => call [DisposeTarget old] b
           | None => b
           end in
  let b := set_scene (mkScene (detach SkyNode (children (scene b))) (environment (scene b)))
                     (set_sceneEnv (attach SkyNode (sceneEnv b)) b) in
  let fresh := targets b in
  let b := set_renderTarget (Some fresh)
             (set_targets (S fresh) (call [FromScene fresh (sceneEnv b)] b)) in
  let b := set_scene (mkScene (attach SkyNode (children (scene b))) (environment (scene b)))
                     (set_sceneEnv (detach SkyNode (sceneEnv b)) b) in
  set_scene (mkScene (children (scene b)) (renderTarget b)) b.

(** ** Loader callbacks (Ocean.js 64-78 and 125-139) *)

Definition onTextureLoad (b : Built) : Built :=
  let wat := water b in
  set_water (mkWater (time_value wat) (sunDirection wat)
                     (mkTexture RepeatWrapping RepeatWrapping) (wrotation_x wat)) b.

Definition onProgress (loaded total : num) (w : World) : World :=
  log (ConsoleLog (loaded / total * lit 100)) w.

Definition onTextureError (w : World) : World := log (ConsoleError ErrorLoadingNormals) w.

(** [gltf] is the root node [gltf.scene] as the loader hands it over. *)
Definition onModelLoad (gltf : Object3D) (s : Session) : Outcome Session :=
  let s := set_modelT (Some gltf) s in
  let zero := lit 0 in
  let twenty := lit 20 in
  let placed := mkObject3D (uuid gltf) (mkVector3 zero zero zero) (rotation gltf)
                           (mkVector3 twenty twenty twenty) in
  let s := set_modelT (Some placed) s in
  match built s with
  | None => Threw (TypeError of_scene)
  | Some b =>
      let sc := scene b in
      Returned (set_built
                  (Some (set_scene (mkScene (attach (ModelNode (uuid placed)) (children sc))
                                            (environment sc)) b)) s)
  end.

Definition onModelError (w : World) : World := log (ConsoleError ErrorLoadingGLTF) w.

(** [loadingManager.onError] *)
Definition onManagerError (w : World) : World := log (ConsoleError ErrorLoadingTexture) w.

(** ** Building the scene (Ocean.js 26-139, Ocean copy.jsx 218-336) *)

(** Modelled from the spec: the engine's water primitive is not under src/.
    Its phase parameter (the [time] uniform) starts at 0, which is what
    "water phase after N frames equals N/40" counts from; the sun direction
    and the normal map are the ones passed in, and the mesh is unrotated. *)
Definition new_Water (normals : Texture) (direction : Vector3) : Water :=
  mkWater (lit 0) direction normals (lit 0).

(** Modelled from the spec: the engine's sky primitive is not under src/.
    Every shading parameter set here is overwritten by [build] before it is
    read. *)
Definition new_Sky : Sky :=
  mkSky (mkVector3 (lit 0) (lit 0) (lit 0)) (lit 1) (lit 2) (lit 1) (lit 0.005) (lit 0.8).

Definition build (owner : Listener) (c : Container) : Container * Built :=
  let c := match elements c with
           | [] => c
           | _ :: _ => mkContainer [] (clientWidth c) (clientHeight c)
           end in
  let rend := mkRenderer (clientWidth c, clientHeight c) true (lit 0.5) in
  let c := mkContainer (elements c ++ [Canvas owner]) (clientWidth c) (clientHeight c) in
  let sc := mkScene [] None in
  let cam := mkCamera (mkVector3 (lit 30) (lit 30) (lit 120))
                      (clientWidth c / clientHeight c) None in
  let sn := mkVector3 (lit 0) (lit 0) (lit 0) in
  let wat := new_Water (mkTexture ClampToEdgeWrapping ClampToEdgeWrapping)
                       (mkVector3 (lit 0) (lit 0) (lit 0)) in
  let wat := mkWater (time_value wat) (sunDirection wat) (waterNormals wat)
                     (- Math_PI / lit 2) in
  let sc := mkScene (attach WaterNode (children sc)) (environment sc) in
  let sk := new_Sky in
  let sk := mkSky (sunPosition sk) (lit 10000) (turbidity sk) (rayleigh sk)
                  (mieCoefficient sk) (mieDirectionalG sk) in
  let sc := mkScene (attach SkyNode (children sc)) (environment sc) in
  let sk := mkSky (sunPosition sk) (sky_scale sk) (lit 10) (lit 2) (lit 0.005) (lit 0.8) in
  let b := mkBuilt cam sc rend wat sn sk [] None 0 Pending NotStarted [] in
  let b := updateSun b in
  (c, set_modelLoad Pending b).

(** ** Ocean.js: module scope, [init], and the events the browser delivers *)

(** Ocean.js 12-15: the module-level variables. *)
Definition module_init (w : World) : World * Session :=
  (allocate w, mkSession None None (lit 0) (innerWidth w / lit 2) (closures w)).

(** Ocean.js 18-144. *)
Definition init (st : World * Session) : World * Session :=
  let (w, s) := st in
  match container w with
  | None => (log (ConsoleError NoContainer) w, s)
  | Some c =>
      let (c, b) := build (self s) c in
      let w := set_container (Some c) w in
      let s := set_built (Some b) s in
      let w := set_mousemove (addEventListener (self s) (mousemove w)) w in
      let w := set_resize (addEventListener (self s) (resize w)) w in
      (w, s)
  end.

(** Ocean.js 190: [init] runs once, when the document has loaded. *)
Definition boot (w : World) : World * Session := init (module_init w).

Inductive Event : Type :=
| AnimationFrame (now : num)
| MouseMove (clientX : num)
| WindowResize (inner width height : num)
| TextureLoaded
| TextureProgress (loaded total : num)
| TextureError
| ModelLoaded (gltf : Object3D)
| ModelProgress (loaded total : num)
| ModelError
| ManagerError.

Definition registered (l : Listener) (ls : list Listener) : bool := existsb (Nat.eqb l) ls.

Definition looping (s : Session) : bool :=
  match built s with
  | Some b => animationLoop (renderer b)
  | None => false
  end.

Definition Load_pending (l : Load) : bool :=
  match l with
  | Pending => true
  | _ => false
  end.

Definition loading (which : Built -> Load) (s : Session) : bool :=
  match built s with
  | Some b => Load_pending (which b)
  | None => false
  end.

Definition settle (mark : Built -> Built) (s : Session) : Session :=
  match built s with
  | Some b => set_built (Some (mark b)) s
  | None => s
  end.

Definition resized (inner width height : num) (w : World) : World :=
  let w := set_innerWidth inner w in
  match container w with
  | Some c => set_container (Some (mkContainer (elements c) width height)) w
  | None => w
  end.

(** One browser event.  A handler runs only if it is registered, the frame
    callback only while the animation loop is set, and a loader reports
    success or failure once per load. *)
Definition step (e : Event) (st : World * Session) : Outcome (World * Session) :=
  let (w, s) := st in
  match e with
  | AnimationFrame now =>
      if looping s
      then bind (animate now s) (fun s => Returned (w, s))
      else Returned (w, s)
  | MouseMove clientX =>
      if registered (self s) (mousemove w)
      then Returned (w, onDocumentMouseMove clientX s)
      else Returned (w, s)
  | WindowResize inner width height =>
      let w := resized inner width height w in
      if registered (self s) (resize w)
      then bind (onWindowResize w s) (fun s => Returned (w, s))
      else Returned (w, s)
  | TextureLoaded =>
      if loading textureLoad s
      then Returned (w, settle (fun b => set_textureLoad Loaded (onTextureLoad b)) s)
      else Returned (w, s)
  | TextureProgress loaded total =>
      if loading textureLoad s then Returned (onProgress loaded total w, s) else Returned (w, s)
  | TextureError =>
      if loading textureLoad s
      then Returned (onTextureError w, settle (set_textureLoad Failed) s)
      else Returned (w, s)
  | ModelLoaded gltf =>
      if loading modelLoad s
      then bind (onModelLoad gltf s) (fun s => Returned (w, settle (set_modelLoad Loaded) s))
      else Returned (w, s)
  | ModelProgress loaded total =>
      if loading modelLoad s then Returned (onProgress loaded total w, s) else Returned (w, s)
  | ModelError =>
      if loading modelLoad s
      then Returned (onModelError w, settle (set_modelLoad Failed) s)
      else Returned (w, s)
  | ManagerError =>
      match built s with
      | Some _ => Returned (onManagerError w, s)
      | None => Returned (w, s)
      end
  end.

Fixpoint run (events : list Event) (st : World * Session) : Outcome (World * Session) :=
  match events with
  | [] => Returned st
  | e :: rest => bind (step e st) (run rest)
  end.

End Ocean.

Arguments Vector3 num : clear implicits.
Arguments Object3D num : clear implicits.
Arguments Camera num : clear implicits.
Arguments Water num : clear implicits.
Arguments Sky num : clear implicits.
Arguments Renderer num : clear implicits.
Arguments Frame num : clear implicits.
Arguments GpuCall num : clear implicits.
Arguments Built num : clear implicits.
Arguments Session num : clear implicits.
Arguments LogEntry num : clear implicits.
Arguments Container num : clear implicits.
Arguments World num : clear implicits.
Arguments Event num : clear implicits.

(** ** Ocean copy.jsx: the effect of the React component and its cleanup *)

Module Jsx.
Section Component.

Context {num : Type} {JS : JSNumber num}.
Local Open Scope js_scope.

(** Ocean copy.jsx 217-337. *)
Definition init (owner : Listener) (c : Container num) : Container num * Built num :=
  build owner c.

(** Ocean copy.jsx 382-386: [container] is the element captured by the effect;
    [c] is that element as it is when the event arrives. *)
Definition onWindowResize (c : Container num) (s : Session num) : Outcome (Session num) :=
  match built s with
  | None => Threw (TypeError of_camera)
  | Some b => Returned (set_built (Some (fit c b)) s)
  end.

(** Ocean copy.jsx 206-393: the body of [useEffect].  The second component
    is the session whose [cleanup] React receives, if any. *)
Definition useEffect (w : World num) : World num * option (Session num) :=
  match container w with
  | None => (w, None)
  | Some c =>
      let s := mkSession None None (lit 0) (innerWidth w / lit 2) (closures w) in
      let w := allocate w in
      let w := set_mousemove (addEventListener (self s) (mousemove w)) w in
      let (c, b) := init (self s) c in
      let w := set_container (Some c) w in
      let s := set_built (Some b) s in
      let w := set_resize (addEventListener (self s) (resize w)) w in
      (w, Some s)
  end.

(** Ocean copy.jsx 405-418: what the callback of [scene.traverse] disposes at
    and below one child of the scene.  The scene itself has neither geometry
    nor material.  Water and sky are meshes without children, each with a
    geometry and one material (no array).  The model is the root of a loaded
    tree: which of its objects carry a geometry or materials is the loader's
    payload, so the walk through it is recorded as one call. *)
Definition traverse_dispose (n : Node) : list (GpuCall num) :=
  match n with
  | WaterNode | SkyNode => [DisposeGeometry n; DisposeMaterial n]
  | ModelNode _ => [DisposeWithin n]
  end.

(** Ocean copy.jsx 395-420.  [renderer.dispose()] also stops the animation
    loop of the engine. *)
Definition cleanup (st : World num * Session num) : World num * Session num :=
  let (w, s) := st in
  let w := set_mousemove (removeEventListener (self s) (mousemove w)) w in
  let w := set_resize (removeEventListener (self s) (resize w)) w in
  match built s with
  | None => (w, s)
  | Some b =>
      let r := renderer b in
      let b := call [DisposeRenderer; ForceContextLoss]
                    (set_renderer (mkRenderer (size r) false (toneMappingExposure r)) b) in
      let w := match container w with
               | Some c =>
                   set_container
                     (Some (mkContainer (filter (fun e => negb (Element_is (self s) e)) (elements c))
                                        (clientWidth c) (clientHeight c))) w
               | None => w
               end in
      let b := call (flat_map traverse_dispose (children (scene b))) b in
      (w, set_built (Some b) s)
  end.

End Component.
End Jsx.

(** ** Vocabulary of the statements *)

Section Observations.

Context {num : Type} {JS : JSNumber num}.
Local Open Scope js_scope.

(** The engine calls [animate] once per display refresh; [clock] lists the
    readings of [performance.now()] of consecutive frames. *)
Fixpoint frames (clock : list num) (s : Session num) : Outcome (Session num) :=
  match clock with
  | [] => Returned s
  | now :: rest => bind (animate now s) (frames rest)
  end.

Definition isFrame (e : Event num) : bool :=
  match e with
  | AnimationFrame _ => true
  | _ => false
  end.

Definition isModelLoaded (e : Event num) : bool :=
  match e with
  | ModelLoaded _ => true
  | _ => false
  end.

(** The two events that settle the model load. *)
Definition settlesModel (e : Event num) : bool :=
  match e with
  | ModelLoaded _ | ModelError => true
  | _ => false
  end.

Definition frameCount (events : list (Event num)) : nat :=
  List.length (filter isFrame events).

Definition draws (calls : list (GpuCall num)) : list (Frame num) :=
  flat_map (fun c => match c with Draw f => [f] | _ => [] end) calls.

(** A frame drawn with water and sky only. *)
Definition bare_sea (f : Frame num) : Prop :=
  drawn f = [WaterNode; SkyNode] /\ drawn_model f = None.

(** The increment of line 169, as the program evaluates it. *)
Definition tick (phase : num) : num := phase + lit 1.0 / lit 40.0.

(** The session runs: everything is built, the loop is set and the pointer
    handler is registered. *)
Definition running (st : World num * Session num) : Prop :=
  exists b, built (snd st) = Some b
            /\ animationLoop (renderer b) = true
            /\ registered (self (snd st)) (mousemove (fst st)) = true.

(** The model is the loaded node [gltf], still where the success callback put
    it: at x = z = 0 and with scale 20. *)
Definition anchored (gltf m : Object3D num) : Prop :=
  uuid m = uuid gltf
  /\ scale m = mkVector3 (lit 20) (lit 20) (lit 20)
  /\ vx (position m) = lit 0
  /\ vz (position m) = lit 0.

(** The render targets generated, and those disposed, so far, in call order. *)
Definition baked (calls : list (GpuCall num)) : list nat :=
  flat_map (fun c => match c with FromScene t _ => [t] | _ => [] end) calls.

Definition disposed (calls : list (GpuCall num)) : list nat :=
  flat_map (fun c => match c with DisposeTarget t => [t] | _ => [] end) calls.

(** The render targets are in order: every target generated so far, except
    the one [renderTarget] holds, has been disposed; none was disposed twice;
    the current one has not been disposed; and target numbers are not reused. *)
Definition tidy (b : Built num) : Prop :=
  (forall t, In t (baked (gpu b)) -> renderTarget b = Some t \/ In t (disposed (gpu b)))
  /\ (forall t, In t (disposed (gpu b)) -> (t < targets b)%nat)
  /\ (forall t, renderTarget b = Some t -> (t < targets b)%nat /\ ~ In t (disposed (gpu b)))
  /\ NoDup (disposed (gpu b)).

(** Progress reports and [loadingManager.onError]: the events whose handlers
    only write to the console. *)
Definition informational (e : Event num) : bool :=
  match e with
  | TextureProgress _ _ | ModelProgress _ _ | ManagerError => true
  | _ => false
  end.

(** Two pages that differ at most in what the console holds. *)
Definition same_but_console (w w' : World num) : Prop :=
  container w = container w'
  /\ innerWidth w = innerWidth w'
  /\ mousemove w = mousemove w'
  /\ resize w = resize w'
  /\ closures w = closures w'.

(** The outcomes of two runs agree up to the console. *)
Definition agree (o o' : Outcome (World num * Session num)) : Prop :=
  match o, o' with
  | Returned (w, s), Returned (w', s') => s = s' /\ same_but_console w w'
  | Threw _, Threw _ => True
  | _, _ => False
  end.

(** The normal map wraps by repetition once its load has succeeded, and keeps
    the wrapping it was created with until then. *)
Definition wraps_as_loaded (b : Built num) : Prop :=
  waterNormals (water b)
  = match textureLoad b with
    | Loaded => mkTexture RepeatWrapping RepeatWrapping
    | _ => mkTexture ClampToEdgeWrapping ClampToEdgeWrapping
    end.

(** What one event does to a running session. *)
Definition stepped (e : Event num) (st st' : World num * Session num)
                   (b b' : Built num) : Prop :=
  windowHalfX (snd st') = windowHalfX (snd st)
  /\ time_value (water b') = (if isFrame e then tick (time_value (water b))
                              else time_value (water b))
  /\ (isModelLoaded e = false \/ modelLoad b <> Pending ->
      modelT (snd st) = None -> modelT (snd st') = None)
  /\ (isModelLoaded e = false \/ modelLoad b <> Pending ->
      children (scene b') = children (scene b))
  /\ (modelLoad b' = match e with
                     | ModelError => if Load_pending (modelLoad b) then Failed else modelLoad b
                     | ModelLoaded _ => if Load_pending (modelLoad b) then Loaded else modelLoad b
                     | _ => modelLoad b
                     end)
  /\ (draws (gpu b') = draws (gpu b) ++
                       (if isFrame e
                        then [mkFrame (children (scene b)) (modelT (snd st'))
                                      (time_value (water b')) (camera b')]
                        else []))
  /\ (exists more, console (fst st') = console (fst st) ++ more
                    /\ (e = ModelError -> modelLoad b = Pending ->
                        more = [ConsoleError ErrorLoadingGLTF])).

End Observations.

(** ** Sample pages *)

(** A window 1000 pixels wide whose container is empty and measures 800 by 600,
    in binary64 and over the reals. *)
Definition desktop : World float :=
  mkWorld (Some (mkContainer [] 800%float 600%float)) 1000%float [] [] [] 0.

Definition desktop_exact : World R :=
  mkWorld (Some (mkContainer [] 800%R 600%R)) 1000%R [] [] [] 0.

(** The same window without the container element. *)
Definition bare : World float := mkWorld None 1000%float [] [] [] 0.

(** A model as a loader may hand it over. *)
Definition crate : Object3D float :=
  mkObject3D 7 (mkVector3 1%float 2%float 3%float)
               (mkVector3 0%float 0%float 0%float)
               (mkVector3 1%float 1%float 1%float).

(** The two angles [updateSun] passes to [Math.sin] and [Math.cos], as
    doubles: 88 degrees and 180 degrees in radians. *)
Definition sun_polar : float := 0x1.893011f31982ep+0%float.
Definition sun_azimuth : float := 0x1.921fb54442d18p+1%float.

(** Sine and cosine tables for running [updateSun] in binary64.  At the two
    angles, [sin_rounded] and [cos_rounded] return the doubles nearest to the
    sine and cosine (0.9993908270190958 and 0.03489949670250108 at 88 degrees,
    1.2246467991473532e-16 and -1 at the double nearest to pi).  [sin_low]
    differs from [sin_rounded] only at 88 degrees, where it returns the next
    double below, 0.9993908270190957: an error of one unit in the last place,
    which ECMAScript allows an implementation of [Math.sin]. *)
Definition sin_rounded (x : float) : float :=
  if PrimFloat.eqb x sun_polar then 0x1.ffb0278bf0567p-1%float else 0x1.1a62633145c07p-53%float.

Definition sin_low (x : float) : float :=
  if PrimFloat.eqb x sun_polar then 0x1.ffb0278bf0566p-1%float else 0x1.1a62633145c07p-53%float.

Definition cos_rounded (x : float) : float :=
  if PrimFloat.eqb x sun_polar then 0x1.1de58c9f7dc37p-5%float else (-1)%float.

(** A page that has been used before: a stale canvas and another element in
    the container, listeners of other scripts on document and window. *)
Definition shelf : Container R := mkContainer [Foreign; Canvas 3] 800%R 600%R.

Definition revisited : World R := mkWorld (Some shelf) 1000%R [1] [2] [] 5.

(** * Properties *)

Section Facts.

Context {num : Type} {JS : JSNumber num}.
Local Open Scope js_scope.

Lemma registered_add (l : Listener) (ls : list Listener) :
  registered l (addEventListener l ls) = true.
Proof.
  unfold registered, addEventListener.
  destruct (existsb (Nat.eqb l) ls) eqn:E; [exact E|].
  rewrite existsb_app. simpl. rewrite Nat.eqb_refl. now rewrite orb_true_r.
Qed.

Lemma build_scene (owner : Listener) (c : Container num) :
  children (scene (snd (build owner c))) = [WaterNode; SkyNode]
  /\ animationLoop (renderer (snd (build owner c))) = true
  /\ modelLoad (snd (build owner c)) = Pending
  /\ time_value (water (snd (build owner c))) = lit 0
  /\ draws (gpu (snd (build owner c))) = []
  /\ gpu (snd (build owner c)) = [FromScene 0 [SkyNode]].
Proof. repeat split; reflexivity. Qed.

Lemma boot_eq (w : World num) (c : Container num) :
  container w = Some c ->
  boot w =
  (set_resize (addEventListener (closures w) (resize w))
     (set_mousemove (addEventListener (closures w) (mousemove w))
        (set_container (Some (fst (build (closures w) c))) (allocate w))),
   mkSession (Some (snd (build (closures w) c))) None (lit 0)
             (innerWidth w / lit 2) (closures w)).
Proof.
  intros Hc. unfold boot, module_init, init. cbn [allocate container self]. rewrite Hc.
  destruct (build (closures w) c) as [c' b]. reflexivity.
Qed.

Lemma boot_running (w : World num) (c : Container num) :
  container w = Some c -> running (boot w).
Proof.
  intros Hc. rewrite (boot_eq w c Hc).
  exists (snd (build (closures w) c)). cbn [fst snd built self].
  split; [reflexivity|]. split; [apply (build_scene (closures w) c)|].
  cbn [set_resize set_mousemove mousemove]. apply registered_add.
Qed.

Lemma draws_app (a b : list (GpuCall num)) : draws (a ++ b) = draws a ++ draws b.
Proof. unfold draws. apply flat_map_app. Qed.

Ltac fact :=
  first [ reflexivity
        | assumption
        | intros _ ->; reflexivity
        | intros [? | ?]; [discriminate | congruence]
        | intros [? | ?] ?; [discriminate | congruence]
        | now rewrite app_nil_r
        | rewrite flat_map_app; cbn; now rewrite ?app_nil_r
        | eexists; split;
          [ first [reflexivity | symmetry; apply app_nil_r]
          | intros; first [discriminate | congruence | reflexivity] ] ].

Ltac settled :=
  eexists (_, _), _; cbn [fst snd built self mousemove];
  split; [reflexivity|]; split; [reflexivity|];
  split; [fact|]; split; [fact|];
  unfold stepped, draws, tick; cbn;
  repeat (split; [fact|]); fact.

Lemma step_running (e : Event num) (st : World num * Session num) (b : Built num) :
  built (snd st) = Some b ->
  animationLoop (renderer b) = true ->
  registered (self (snd st)) (mousemove (fst st)) = true ->
  exists st' b',
    step e st = Returned st'
    /\ built (snd st') = Some b'
    /\ animationLoop (renderer b') = true
    /\ registered (self (snd st')) (mousemove (fst st')) = true
    /\ stepped e st st' b b'.
Proof.
  destruct st as [w [bo slot mx hx id]]. cbn [fst snd built self].
  intros -> Hloop Hreg.
  destruct b as [cam sc [sz lp ex] wat sn sk env rt tg tl ml calls].
  cbn in Hloop. subst lp.
  destruct e; cbn.
  - settled.
  - rewrite Hreg. settled.
  - unfold resized, registered in *.
    destruct w as [[c|] iw mm rs con n]; cbn in *;
      destruct (existsb (Nat.eqb id) rs); cbn; settled.
  - destruct tl; cbn; settled.
  - destruct tl; cbn; settled.
  - destruct tl; cbn; settled.
  - destruct ml; cbn; settled.
  - destruct ml; cbn; settled.
  - destruct ml; cbn; settled.
  - settled.
Qed.

Lemma frameCount_cons (e : Event num) (events : list (Event num)) :
  frameCount (e :: events) = if isFrame e then S (frameCount events) else frameCount events.
Proof. unfold frameCount. cbn [filter]. now destruct (isFrame e). Qed.

(** Along any run of a running session the loop stays set, the handlers stay
    registered, the sampled half-width is kept, and the water phase has been
    ticked once per frame. *)
Lemma run_running (events : list (Event num)) :
  forall (st : World num * Session num) (b : Built num),
    built (snd st) = Some b ->
    animationLoop (renderer b) = true ->
    registered (self (snd st)) (mousemove (fst st)) = true ->
    exists st' b',
      run events st = Returned st'
      /\ built (snd st') = Some b'
      /\ animationLoop (renderer b') = true
      /\ registered (self (snd st')) (mousemove (fst st')) = true
      /\ windowHalfX (snd st') = windowHalfX (snd st)
      /\ time_value (water b') = Nat.iter (frameCount events) tick (time_value (water b)).
Proof.
  induction events as [|e events IH]; intros st b Hb Hloop Hreg.
  - exists st, b. repeat split; assumption.
  - destruct (step_running e st b Hb Hloop Hreg)
      as (st1 & b1 & Hstep & Hb1 & Hloop1 & Hreg1 & Hhalf & Hphase & _).
    destruct (IH st1 b1 Hb1 Hloop1 Hreg1)
      as (st2 & b2 & Hrun & Hb2 & Hloop2 & Hreg2 & Hhalf2 & Hphase2).
    exists st2, b2. cbn [run]. rewrite Hstep. cbn [bind].
    repeat split; try assumption.
    + now rewrite Hhalf2.
    + rewrite Hphase2, Hphase, frameCount_cons.
      destruct (isFrame e); [now rewrite Nat.iter_succ_r | reflexivity].
Qed.

Lemma boot_phase (w : World num) (c : Container num) (events : list (Event num)) :
  container w = Some c ->
  exists st b,
    run events (boot w) = Returned st
    /\ built (snd st) = Some b
    /\ registered (self (snd st)) (mousemove (fst st)) = true
    /\ windowHalfX (snd st) = innerWidth w / lit 2
    /\ time_value (water b) = Nat.iter (frameCount events) tick (lit 0).
Proof.
  intros Hc. destruct (boot_running w c Hc) as (b0 & Hb0 & Hloop0 & Hreg0).
  destruct (run_running events (boot w) b0 Hb0 Hloop0 Hreg0)
    as (st & b & Hrun & Hb & _ & Hreg & Hhalf & Hphase).
  exists st, b. repeat split; try assumption.
  - rewrite Hhalf, (boot_eq w c Hc). reflexivity.
  - rewrite Hphase. f_equal.
    rewrite (boot_eq w c Hc) in Hb0. cbn in Hb0. injection Hb0 as <-. reflexivity.
Qed.

End Facts.

(** ** Exact arithmetic *)

Section ExactFacts.

#[local] Existing Instance Exact.
Local Open Scope R_scope.

Lemma exact_step : @ndiv R Exact (lit 1.0) (lit 40.0) = / 40.
Proof. cbn. unfold Q2R. cbn. field. Qed.

Lemma exact_ticks (n : nat) : Nat.iter n (@tick R Exact) (@lit R Exact 0) = INR n / 40.
Proof.
  induction n as [|n IH].
  - cbn. unfold Q2R. cbn. field.
  - rewrite S_INR, Nat.iter_succ, IH. unfold tick. rewrite exact_step.
    cbn [nadd Exact]. field.
Qed.

End ExactFacts.

(** C1 (as amended).  Whatever the browser delivers after start-up (clock
    readings, pointer moves, resizes, load outcomes), the run returns normally
    and the water's [time] uniform is the start value 0 ticked once per
    animation frame, each tick adding the step [1.0 / 40.0] in the
    arithmetic of the number type; that N-fold sum is N/40 over the reals. *)
Theorem water_phase_counts_frames :
  (forall (num : Type) (JS : JSNumber num) (w : World num) (c : Container num)
          (events : list (Event num)),
      container w = Some c ->
      exists st b,
        run events (boot w) = Returned st
        /\ built (snd st) = Some b
        /\ time_value (water b) = Nat.iter (frameCount events) tick (lit 0))
  /\ (forall n : nat, Nat.iter n (@tick R Exact) (@lit R Exact 0) = (INR n / 40)%R).
Proof.
  split.
  - intros num JS w c events Hc.
    destruct (boot_phase w c events Hc) as (st & b & Hrun & Hb & _ & _ & Hphase).
    now exists st, b.
  - exact exact_ticks.
Qed.

(** ** Binary64 arithmetic *)

Lemma float_neq (a b : float) :
  PrimFloat.eqb a b = false -> PrimFloat.eqb b b = true -> a <> b.
Proof. intros Hab Hbb E. rewrite E in Hab. congruence. Qed.

(** Three frames on [desktop]: the [time] uniform holds 0.07500000000000001,
    which is not the double 3/40 = 0.075, whatever [Math.sin] and [Math.cos]
    are.  (Forty frames give 1.0000000000000004.) *)
Lemma water_phase_after_three_frames :
  ~ exists (fsin fcos : float -> float) st b,
      @run float (Float64 fsin fcos)
           [AnimationFrame 0%float; AnimationFrame 16.75%float; AnimationFrame 33.5%float]
           (@boot float (Float64 fsin fcos) desktop) = Returned st
      /\ built (snd st) = Some b
      /\ time_value (water b) = PrimFloat.div (float_lit 3) (float_lit 40).
Proof.
  intros (fsin & fcos & st & b & Hrun & Hb & Hphase).
  vm_compute in Hrun. injection Hrun as <-.
  cbn in Hb. injection Hb as <-.
  revert Hphase. vm_compute. apply float_neq; reflexivity.
Qed.

(** ** The per-frame function *)

Section Frames.

Context {num : Type} {JS : JSNumber num}.
Local Open Scope js_scope.

(** C2.  In a frame whose elapsed time is [t = performance.now() * 0.001],
    [render] returns normally; a populated model slot gets vertical position
    [sin t * 20 + 5] and rotation angles [t * 0.51] (x), [t * 0.51] (y) and
    [t * 0.5] (z), its other coordinates and its scale being kept; an empty
    slot stays empty and the frame is drawn without a model. *)
Theorem render_floats_model (now : num) (b : Built num) (slot : option (Object3D num))
                            (mx hx : num) (id : Listener) :
  let t := now * lit 0.001 in
  exists b',
    render now (mkSession (Some b) slot mx hx id)
    = Returned
        (mkSession (Some b')
           match slot with
           | Some m =>
               Some (mkObject3D (uuid m)
                       (mkVector3 (vx (position m)) (Math_sin t * lit 20 + lit 5) (vz (position m)))
                       (mkVector3 (t * lit 0.51) (t * lit 0.51) (t * lit 0.5))
                       (scale m))
           | None => None
           end mx hx id)
    /\ draws (gpu b') =
       draws (gpu b) ++
       [mkFrame (children (scene b))
                match slot with
                | Some m =>
                    Some (mkObject3D (uuid m)
                            (mkVector3 (vx (position m)) (Math_sin t * lit 20 + lit 5)
                                       (vz (position m)))
                            (mkVector3 (t * lit 0.51) (t * lit 0.51) (t * lit 0.5))
                            (scale m))
                | None => None
                end
                (time_value (water b'))
                (camera b')].
Proof.
  intros t. unfold render. cbn [built modelT mouseX].
  destruct slot as [m|]; eexists; (split; [reflexivity|]);
    unfold draws; cbn; rewrite flat_map_app; reflexivity.
Qed.

(** One frame moves the camera by a twentieth of its distance to the target
    and leaves the pointer offset alone. *)
Lemma render_camera (now : num) (b : Built num) (slot : option (Object3D num))
                    (mx hx : num) (id : Listener) :
  exists b' slot',
    animate now (mkSession (Some b) slot mx hx id) = Returned (mkSession (Some b') slot' mx hx id)
    /\ vx (cposition (camera b'))
       = vx (cposition (camera b)) + (mx * lit 0.015 - vx (cposition (camera b))) * lit 0.05.
Proof.
  unfold animate, render. cbn [built modelT mouseX]. eexists _, _. split; reflexivity.
Qed.

End Frames.

Section ExactFrames.

#[local] Existing Instance Exact.
Local Open Scope R_scope.

(** C3 (as amended).  Over the reals: from any camera position, with the
    pointer offset [mx] held fixed, [k] consecutive frames return normally and
    leave the camera at distance [|x0 - target| * 0.95 ^ k] from
    [target = mx * 0.015]. *)
Theorem camera_follow_geometric (clock : list R) :
  forall (b : Built R) (slot : option (Object3D R)) (mx hx : R) (id : Listener),
  exists b' slot',
    frames clock (mkSession (Some b) slot mx hx id) = Returned (mkSession (Some b') slot' mx hx id)
    /\ Rabs (vx (cposition (camera b')) - mx * 0.015)
       = Rabs (vx (cposition (camera b)) - mx * 0.015) * 0.95 ^ List.length clock.
Proof.
  induction clock as [|now clock IH]; intros b slot mx hx id.
  - exists b, slot. split; [reflexivity|]. cbn. lra.
  - destruct (render_camera now b slot mx hx id) as (b1 & slot1 & Hstep & Hx).
    destruct (IH b1 slot1 mx hx id) as (b2 & slot2 & Hrun & Hdist).
    exists b2, slot2. split.
    + cbn [frames]. rewrite Hstep. exact Hrun.
    + rewrite Hdist, Hx. cbn [List.length pow nadd nsub nmul lit Exact].
      unfold Q2R. cbn [Qnum Qden].
      set (x := vx (cposition (camera b))). set (target := mx * (15 * / 1000)).
      replace (x + (target - x) * (5 * / 100) - target)
        with ((x - target) * (95 * / 100)) by lra.
      rewrite Rabs_mult, (Rabs_pos_eq (95 * / 100)) by lra. ring.
Qed.

End ExactFrames.

(** On [desktop] with the pointer at x = 700 (offset 400, target 6) the first
    frame takes the camera from 30 to 28.8: the distance to the target is 22.8,
    but [|30 - 6| * 0.95] is the double 22.799999999999997. *)
Lemma camera_follow_rounds_in_binary64 :
  ~ exists (fsin fcos : float -> float) st0 b0 st1 b1,
      @run float (Float64 fsin fcos) [MouseMove 700%float]
           (@boot float (Float64 fsin fcos) desktop) = Returned st0
      /\ built (snd st0) = Some b0
      /\ @run float (Float64 fsin fcos) [AnimationFrame 0%float] st0 = Returned st1
      /\ built (snd st1) = Some b1
      /\ PrimFloat.abs (PrimFloat.sub (vx (cposition (camera b1)))
                                      (PrimFloat.mul (mouseX (snd st0)) (float_lit 0.015)))
         = PrimFloat.mul
             (PrimFloat.abs (PrimFloat.sub (vx (cposition (camera b0)))
                                           (PrimFloat.mul (mouseX (snd st0)) (float_lit 0.015))))
             (float_lit 0.95).
Proof.
  intros (fsin & fcos & st0 & b0 & st1 & b1 & Hrun0 & Hb0 & Hrun1 & Hb1 & Hdist).
  vm_compute in Hrun0. injection Hrun0 as <-.
  cbn in Hb0. injection Hb0 as <-.
  vm_compute in Hrun1. injection Hrun1 as <-.
  cbn in Hb1. injection Hb1 as <-.
  revert Hdist. vm_compute. apply float_neq; reflexivity.
Qed.

(** ** The pointer handler *)

(** On [desktop] (half-width 500) a pointer move at x = 501 stores 2, not the
    plain difference 501 - 500 = 1. *)
Lemma pointer_offset_is_not_plain_difference :
  ~ exists (fsin fcos : float -> float) st,
      @run float (Float64 fsin fcos) [MouseMove 501%float]
           (@boot float (Float64 fsin fcos) desktop) = Returned st
      /\ mouseX (snd st) = PrimFloat.sub 501%float (PrimFloat.div (innerWidth desktop) 2%float).
Proof.
  intros (fsin & fcos & st & Hrun & Hoffset).
  vm_compute in Hrun. injection Hrun as <-.
  revert Hoffset. vm_compute. apply float_neq; reflexivity.
Qed.

Section Pointer.

Context {num : Type} {JS : JSNumber num}.
Local Open Scope js_scope.

Lemma step_mouseX (e : Event num) (w : World num) (s : Session num) :
  match step e (w, s) with
  | Returned (_, s') =>
      mouseX s' = match e with
                  | MouseMove clientX =>
                      if registered (self s) (mousemove w)
                      then (clientX - windowHalfX s) * lit 2
                      else mouseX s
                  | _ => mouseX s
                  end
  | Threw _ => True
  end.
Proof.
  destruct w as [c iw mm rs con n], s as [[b|] slot mx hx id]; destruct e;
    unfold step, onWindowResize, resized, loading, looping, settle, animate, render,
           onModelLoad; cbn;
    repeat match goal with
           | |- context [if ?c then _ else _] => destruct c; cbn
           | |- context [match ?c with Some _ => _ | None => _ end] => destruct c; cbn
           | |- context [Load_pending ?l] => destruct l; cbn
           end;
    try reflexivity; exact I.
Qed.

(** C7 (as amended).  The pointer-move handler stores
    [(clientX - windowHalfX) * 2], twice the offset from the half inner width
    sampled when the module was initialised; [init], the cleanup of the React
    variant and every other event leave the stored scalar as it is. *)
Theorem pointer_offset_is_doubled (e : Event num) (w : World num) (s : Session num)
                                  (clientX : num) :
  mouseX (onDocumentMouseMove clientX s) = (clientX - windowHalfX s) * lit 2
  /\ windowHalfX (snd (module_init w)) = innerWidth w / lit 2
  /\ mouseX (snd (init (w, s))) = mouseX s
  /\ mouseX (snd (Jsx.cleanup (w, s))) = mouseX s
  /\ match step e (w, s) with
     | Returned (_, s') =>
         mouseX s' = match e with
                     | MouseMove x =>
                         if registered (self s) (mousemove w)
                         then (x - windowHalfX s) * lit 2
                         else mouseX s
                     | _ => mouseX s
                     end
     | Threw _ => True
     end.
Proof.
  split; [reflexivity|]. split; [reflexivity|]. split; [|split].
  - unfold init. destruct (container w) as [c|]; [|reflexivity].
    destruct (build (self s) c). reflexivity.
  - unfold Jsx.cleanup. destruct (built s); reflexivity.
  - apply step_mouseX.
Qed.

(** C10.  After start-up on a page that has the container, and after any run
    of events (resizes included), a pointer move at [clientX] is handled and
    stores [(clientX - W0 / 2) * 2], where [W0] is the inner width the window
    had when the module was evaluated. *)
Theorem pointer_center_is_initial_half_width
        (w : World num) (c : Container num) (events : list (Event num)) (clientX : num) :
  container w = Some c ->
  exists st st',
    run events (boot w) = Returned st
    /\ windowHalfX (snd st) = innerWidth w / lit 2
    /\ step (MouseMove clientX) st = Returned st'
    /\ mouseX (snd st') = (clientX - innerWidth w / lit 2) * lit 2.
Proof.
  intros Hc.
  destruct (boot_phase w c events Hc) as ([w1 s1] & b & Hrun & Hb & Hreg & Hhalf & _).
  cbn [fst snd] in *.
  exists (w1, s1), (w1, onDocumentMouseMove clientX s1).
  split; [exact Hrun|]. split; [exact Hhalf|].
  cbn [step]. rewrite Hreg. split; [reflexivity|].
  unfold onDocumentMouseMove. cbn. now rewrite Hhalf.
Qed.

End Pointer.

(** The window starts 1000 wide and is resized to 500 before the pointer moves
    to x = 300: the stored offset is still measured from 500, not from 250. *)
Lemma pointer_center_is_initial_half_width_witness :
  exists st st',
    @run R Exact [WindowResize 500%R 400%R 300%R] (@boot R Exact desktop_exact) = Returned st
    /\ windowHalfX (snd st) = (innerWidth desktop_exact / @lit R Exact 2)%R
    /\ @step R Exact (MouseMove 300%R) st = Returned st'
    /\ mouseX (snd st') = ((300 - innerWidth desktop_exact / @lit R Exact 2) * @lit R Exact 2)%R.
Proof.
  exact (@pointer_center_is_initial_half_width R Exact desktop_exact
           (mkContainer [] 800%R 600%R) [WindowResize 500%R 400%R 300%R] 300%R eq_refl).
Defined.

Lemma water_phase_counts_frames_witness :
  exists st b,
    @run R Exact [AnimationFrame 0%R; MouseMove 700%R; AnimationFrame 17%R]
         (@boot R Exact desktop_exact) = Returned st
    /\ built (snd st) = Some b
    /\ time_value (water b) = Nat.iter 2 (@tick R Exact) (@lit R Exact 0).
Proof.
  exact (proj1 water_phase_counts_frames R Exact desktop_exact
           (mkContainer [] 800%R 600%R)
           [AnimationFrame 0%R; MouseMove 700%R; AnimationFrame 17%R] eq_refl).
Defined.

(** ** Mounting, unmounting and late callbacks *)

Section Lifecycle.

Context {num : Type} {JS : JSNumber num}.
Local Open Scope js_scope.

Lemma add_fresh (id : Listener) (ls : list Listener) :
  Forall (fun l => (l < id)%nat) ls -> addEventListener id ls = ls ++ [id].
Proof.
  intros Hls. unfold addEventListener.
  replace (existsb (Nat.eqb id) ls) with false; [reflexivity|].
  symmetry. induction Hls as [|l ls Hl _ IH]; [reflexivity|].
  cbn. rewrite IH, orb_false_r. apply Nat.eqb_neq. lia.
Qed.

Lemma remove_fresh (id : Listener) (ls : list Listener) :
  Forall (fun l => (l < id)%nat) ls -> removeEventListener id (ls ++ [id]) = ls.
Proof.
  intros Hls. unfold removeEventListener. rewrite filter_app. cbn.
  rewrite Nat.eqb_refl. cbn. rewrite app_nil_r.
  induction Hls as [|l ls Hl _ IH]; [reflexivity|].
  cbn. replace (id =? l)%nat with false by (symmetry; apply Nat.eqb_neq; lia).
  cbn. now rewrite IH.
Qed.

Lemma useEffect_eq (w : World num) (c : Container num) :
  container w = Some c ->
  Jsx.useEffect w =
  (set_resize (addEventListener (closures w) (resize w))
     (set_container (Some (fst (build (closures w) c)))
        (set_mousemove (addEventListener (closures w) (mousemove w)) (allocate w))),
   Some (mkSession (Some (snd (build (closures w) c))) None (lit 0)
                   (innerWidth w / lit 2) (closures w))).
Proof.
  intros Hc. unfold Jsx.useEffect, Jsx.init. rewrite Hc. cbn [self].
  destruct (build (closures w) c) as [c' b]. reflexivity.
Qed.

(** C5 (as amended).  On a page without the container, [init] of Ocean.js
    appends one [console.error] line and changes nothing else: the variables
    stay undefined, no listener is added, no load is started.  The effect of
    the React variant returns at once, without a log line and without a
    cleanup. *)
Theorem no_container_no_session (iw : num) (mm rs : list Listener)
                                (con : list (LogEntry num)) (n : nat) (s : Session num) :
  let w := mkWorld None iw mm rs con n in
  init (w, s) = (mkWorld None iw mm rs (con ++ [ConsoleError NoContainer]) n, s)
  /\ boot w = (mkWorld None iw mm rs (con ++ [ConsoleError NoContainer]) (S n),
               mkSession None None (lit 0) (iw / lit 2) n)
  /\ Jsx.useEffect w = (w, None).
Proof. repeat split. Qed.

(** C8.  Mount, unmount, mount again on the same container: both effects
    return a session, the cleanup removes exactly the two listeners the first
    mount added, and after the second mount the only listeners beyond those
    that were there before the first are one pointer-move and one resize
    listener, both of the second session. *)
Theorem remount_keeps_one_listener_each (w : World num) (c : Container num) :
  container w = Some c ->
  Forall (fun l => (l < closures w)%nat) (mousemove w) ->
  Forall (fun l => (l < closures w)%nat) (resize w) ->
  exists w1 s1 w2 s2 w3 s3,
    Jsx.useEffect w = (w1, Some s1)
    /\ Jsx.cleanup (w1, s1) = (w2, s2)
    /\ Jsx.useEffect w2 = (w3, Some s3)
    /\ mousemove w1 = mousemove w ++ [self s1]
    /\ resize w1 = resize w ++ [self s1]
    /\ mousemove w2 = mousemove w
    /\ resize w2 = resize w
    /\ mousemove w3 = mousemove w ++ [self s3]
    /\ resize w3 = resize w ++ [self s3]
    /\ self s3 <> self s1.
Proof.
  intros Hc Hmm Hrs.
  assert (Hmm' : Forall (fun l => (l < S (closures w))%nat) (mousemove w))
    by (eapply Forall_impl; [|exact Hmm]; cbn; lia).
  assert (Hrs' : Forall (fun l => (l < S (closures w))%nat) (resize w))
    by (eapply Forall_impl; [|exact Hrs]; cbn; lia).
  rewrite (useEffect_eq w c Hc), (add_fresh _ _ Hmm), (add_fresh _ _ Hrs).
  destruct (build (closures w) c) as [c1 b1]. cbn [fst snd].
  eexists _, _, _, _, _, _.
  split; [reflexivity|].
  split.
  { unfold Jsx.cleanup.
    cbn [built self mousemove resize container set_resize set_mousemove set_container
         allocate].
    rewrite (remove_fresh _ _ Hmm), (remove_fresh _ _ Hrs). reflexivity. }
  split.
  { erewrite useEffect_eq by reflexivity.
    cbn [mousemove resize closures set_resize set_mousemove set_container allocate].
    rewrite (add_fresh _ _ Hmm'), (add_fresh _ _ Hrs'). reflexivity. }
  cbn [mousemove resize closures self set_resize set_mousemove set_container allocate].
  repeat split. lia.
Qed.

(** C4 (as amended).  The cleanup sets no liveness flag and the success
    callback tests none: a model that arrives after the cleanup is stored in
    the slot, placed at the origin with scale 20, and attached to the scene
    whose nodes the cleanup has just disposed. *)
Theorem late_model_is_attached_after_cleanup
        (w : World num) (c : Container num) (gltf : Object3D num) :
  container w = Some c ->
  exists w1 s1 w2 s2 b2 s3 b3,
    Jsx.useEffect w = (w1, Some s1)
    /\ Jsx.cleanup (w1, s1) = (w2, s2)
    /\ built s2 = Some b2
    /\ modelT s2 = None
    /\ children (scene b2) = [WaterNode; SkyNode]
    /\ gpu b2 = [FromScene 0 [SkyNode]; DisposeRenderer; ForceContextLoss;
                 DisposeGeometry WaterNode; DisposeMaterial WaterNode;
                 DisposeGeometry SkyNode; DisposeMaterial SkyNode]
    /\ onModelLoad gltf s2 = Returned s3
    /\ built s3 = Some b3
    /\ modelT s3 = Some (mkObject3D (uuid gltf) (mkVector3 (lit 0) (lit 0) (lit 0))
                                    (rotation gltf)
                                    (mkVector3 (lit 20) (lit 20) (lit 20)))
    /\ children (scene b3) = [WaterNode; SkyNode; ModelNode (uuid gltf)].
Proof.
  intros Hc. rewrite (useEffect_eq w c Hc).
  destruct (build_scene (closures w) c) as (Hch & _ & _ & _ & _ & Hgpu).
  destruct (build (closures w) c) as [c1 b1]. cbn [fst snd] in *.
  eexists _, _, _, _, _, _, _.
  split; [reflexivity|].
  split; [unfold Jsx.cleanup; cbn [built]; reflexivity|].
  split; [reflexivity|]. split; [reflexivity|].
  split; [exact Hch|].
  split; [cbn; rewrite Hgpu, Hch; reflexivity|].
  split; [unfold onModelLoad; cbn [built set_modelT]; reflexivity|].
  split; [reflexivity|]. split; [reflexivity|].
  cbn. rewrite Hch. reflexivity.
Qed.

End Lifecycle.

(** Mounted on [bare], the React variant writes nothing to the console. *)
Lemma react_variant_aborts_silently :
  ~ exists (fsin fcos : float -> float),
      In (ConsoleError NoContainer)
         (console (fst (@Jsx.useEffect float (Float64 fsin fcos) bare))).
Proof. intros (fsin & fcos & H). exact H. Qed.

(** Mount on [desktop], unmount, then let the model load complete: the scene
    has one more child than the cleanup left. *)
Lemma late_model_changes_the_scene :
  ~ exists (fsin fcos : float -> float) w1 s1 w2 s2 b2 s3 b3,
      @Jsx.useEffect float (Float64 fsin fcos) desktop = (w1, Some s1)
      /\ Jsx.cleanup (w1, s1) = (w2, s2)
      /\ @onModelLoad float (Float64 fsin fcos) crate s2 = Returned s3
      /\ built s2 = Some b2
      /\ built s3 = Some b3
      /\ children (scene b3) = children (scene b2).
Proof.
  intros (fsin & fcos & w1 & s1 & w2 & s2 & b2 & s3 & b3
          & Hmount & Hclean & Hload & Hb2 & Hb3 & Hsame).
  vm_compute in Hmount. injection Hmount as <- <-.
  vm_compute in Hclean. injection Hclean as <- <-.
  vm_compute in Hload. injection Hload as <-.
  cbn in Hb2, Hb3. injection Hb2 as <-. injection Hb3 as <-.
  cbn in Hsame. discriminate Hsame.
Qed.

Lemma remount_keeps_one_listener_each_witness :
  exists w1 s1 w2 s2 w3 s3,
    @Jsx.useEffect R Exact desktop_exact = (w1, Some s1)
    /\ Jsx.cleanup (w1, s1) = (w2, s2)
    /\ @Jsx.useEffect R Exact w2 = (w3, Some s3)
    /\ mousemove w1 = mousemove desktop_exact ++ [self s1]
    /\ resize w1 = resize desktop_exact ++ [self s1]
    /\ mousemove w2 = mousemove desktop_exact
    /\ resize w2 = resize desktop_exact
    /\ mousemove w3 = mousemove desktop_exact ++ [self s3]
    /\ resize w3 = resize desktop_exact ++ [self s3]
    /\ self s3 <> self s1.
Proof.
  exact (@remount_keeps_one_listener_each R Exact desktop_exact
           (mkContainer [] 800%R 600%R) eq_refl (Forall_nil _) (Forall_nil _)).
Defined.

Lemma late_model_is_attached_after_cleanup_witness :
  exists w1 s1 w2 s2 b2 s3 b3,
    @Jsx.useEffect R Exact desktop_exact = (w1, Some s1)
    /\ Jsx.cleanup (w1, s1) = (w2, s2)
    /\ built s2 = Some b2
    /\ modelT s2 = None
    /\ children (scene b2) = [WaterNode; SkyNode]
    /\ gpu b2 = [FromScene 0 [SkyNode]; DisposeRenderer; ForceContextLoss;
                 DisposeGeometry WaterNode; DisposeMaterial WaterNode;
                 DisposeGeometry SkyNode; DisposeMaterial SkyNode]
    /\ @onModelLoad R Exact (mkObject3D 7 (mkVector3 1 2 3) (mkVector3 0 0 0) (mkVector3 1 1 1))%R s2
       = Returned s3
    /\ built s3 = Some b3
    /\ modelT s3 = Some (mkObject3D 7 (mkVector3 (@lit R Exact 0) (@lit R Exact 0) (@lit R Exact 0))
                                    (mkVector3 0 0 0)%R
                                    (mkVector3 (@lit R Exact 20) (@lit R Exact 20) (@lit R Exact 20)))
    /\ children (scene b3) = [WaterNode; SkyNode; ModelNode 7].
Proof.
  exact (@late_model_is_attached_after_cleanup R Exact desktop_exact
           (mkContainer [] 800%R 600%R)
           (mkObject3D 7 (mkVector3 1 2 3) (mkVector3 0 0 0) (mkVector3 1 1 1))%R eq_refl).
Defined.

(** ** Sun direction and lighting environment *)

Section Sun.

Context {num : Type} {JS : JSNumber num}.
Local Open Scope js_scope.

(** What one call of [updateSun] writes and asks of the engine. *)
Lemma updateSun_effect (b : Built num) :
  sun (updateSun b)
  = setFromSphericalCoords (lit 1) (degToRad (lit 90 - lit 2)) (degToRad (lit 180))
  /\ sunPosition (sky (updateSun b)) = sun (updateSun b)
  /\ sunDirection (water (updateSun b)) = normalize (sun (updateSun b))
  /\ gpu (updateSun b)
     = gpu b
       ++ match renderTarget b with
          | Some old => [DisposeTarget old]
          | None => []
          end
       ++ [FromScene (targets b) (attach SkyNode (sceneEnv b))]
  /\ renderTarget (updateSun b) = Some (targets b)
  /\ targets (updateSun b) = S (targets b)
  /\ environment (scene (updateSun b)) = Some (targets b)
  /\ children (scene (updateSun b)) = attach SkyNode (detach SkyNode (children (scene b))).
Proof.
  destruct b as [cam sc rend wat sn sk env [old|] tg tl ml calls];
    unfold updateSun; cbn; rewrite <- ?app_assoc; repeat split; reflexivity.
Qed.

End Sun.

Section ExactSun.

#[local] Existing Instance Exact.
Local Open Scope R_scope.

Lemma spherical_unit (phi theta : R) :
  let v := setFromSphericalCoords (lit 1) phi theta in
  vx v * vx v + vy v * vy v + vz v * vz v = 1.
Proof.
  cbn. unfold Q2R. cbn.
  pose proof (sin2_cos2 phi) as Hp. pose proof (sin2_cos2 theta) as Ht.
  unfold Rsqr in Hp, Ht.
  replace (sin phi * (1 * / 1) * sin theta * (sin phi * (1 * / 1) * sin theta)
           + cos phi * (1 * / 1) * (cos phi * (1 * / 1))
           + sin phi * (1 * / 1) * cos theta * (sin phi * (1 * / 1) * cos theta))
    with (sin phi * sin phi * (sin theta * sin theta + cos theta * cos theta)
          + cos phi * cos phi) by field.
  rewrite Ht. lra.
Qed.

Lemma unit_normalize (v : Vector3 R) :
  vx v * vx v + vy v * vy v + vz v * vz v = 1 -> length v = 1 /\ normalize v = v.
Proof.
  intros Hv.
  assert (Hlen : length v = 1).
  { unfold length. cbn [nadd nmul Math_sqrt Exact]. rewrite Hv. apply sqrt_1. }
  split; [exact Hlen|].
  unfold normalize. rewrite Hlen. cbn [truthy Exact]. unfold real_truthy.
  destruct (Req_dec_T 1 0) as [H|_]; [lra|].
  destruct v as [x y z]. unfold divideScalar, multiplyScalar. cbn. unfold Q2R. cbn.
  f_equal; field.
Qed.

End ExactSun.

Section Binary64Sun.

Lemma sun_angles (fsin fcos : float -> float) :
  @degToRad float (Float64 fsin fcos)
            (@nsub float (Float64 fsin fcos) (@lit float (Float64 fsin fcos) 90)
                   (@lit float (Float64 fsin fcos) 2)) = sun_polar
  /\ @degToRad float (Float64 fsin fcos) (@lit float (Float64 fsin fcos) 180) = sun_azimuth.
Proof. split; vm_compute; reflexivity. Qed.

(** In binary64, with the nearest doubles for the two sines and cosines, the
    sun vector has length exactly 1 and normalising it changes nothing. *)
Lemma rounded_sun_is_unit (fsin fcos : float -> float) :
  fsin sun_polar = 0x1.ffb0278bf0567p-1%float ->
  fcos sun_polar = 0x1.1de58c9f7dc37p-5%float ->
  fsin sun_azimuth = 0x1.1a62633145c07p-53%float ->
  fcos sun_azimuth = (-1)%float ->
  let v := @setFromSphericalCoords float (Float64 fsin fcos)
                                   (@lit float (Float64 fsin fcos) 1) sun_polar sun_azimuth in
  @length float (Float64 fsin fcos) v = 1%float
  /\ @normalize float (Float64 fsin fcos) v = v.
Proof.
  intros Hs1 Hc1 Hs2 Hc2 v. subst v.
  unfold normalize, divideScalar, multiplyScalar, length, setFromSphericalCoords.
  cbn [Math_sin Math_cos Math_sqrt nadd nmul ndiv lit truthy Float64 vx vy vz].
  rewrite Hs1, Hc1, Hs2, Hc2. split; vm_compute; reflexivity.
Qed.

End Binary64Sun.

(** C9.  Every call of [updateSun] sets [sun] from the spherical
    coordinates (radius 1, polar angle 90 - 2 degrees, azimuth 180 degrees),
    copies it into the sky's [sunPosition], copies its normalisation into the
    water's [sunDirection], disposes the render target of the previous call,
    if any, before generating the next one, and installs the texture of the
    new target as the scene's environment.  The vector has length 1, and the
    sky and the water hold the same direction, over the reals, and in binary64
    whenever [Math.sin] and [Math.cos] return the nearest doubles at the two
    angles. *)
Theorem updateSun_keeps_sky_and_water_consistent :
  (forall (num : Type) (JS : JSNumber num) (b : Built num),
      sun (updateSun b)
      = setFromSphericalCoords (lit 1) (degToRad (nsub (lit 90) (lit 2))) (degToRad (lit 180))
      /\ sunPosition (sky (updateSun b)) = sun (updateSun b)
      /\ sunDirection (water (updateSun b)) = normalize (sun (updateSun b))
      /\ gpu (updateSun b)
         = gpu b
           ++ match renderTarget b with
              | Some old => [DisposeTarget old]
              | None => []
              end
           ++ [FromScene (targets b) (attach SkyNode (sceneEnv b))]
      /\ renderTarget (updateSun b) = Some (targets b)
      /\ environment (scene (updateSun b)) = Some (targets b))
  /\ (forall b : Built R,
        @length R Exact (sun (@updateSun R Exact b)) = 1%R
        /\ sunDirection (water (@updateSun R Exact b))
           = sunPosition (sky (@updateSun R Exact b)))
  /\ (forall (fsin fcos : float -> float) (b : Built float),
        fsin sun_polar = 0x1.ffb0278bf0567p-1%float ->
        fcos sun_polar = 0x1.1de58c9f7dc37p-5%float ->
        fsin sun_azimuth = 0x1.1a62633145c07p-53%float ->
        fcos sun_azimuth = (-1)%float ->
        @length float (Float64 fsin fcos) (sun (@updateSun float (Float64 fsin fcos) b))
        = 1%float
        /\ sunDirection (water (@updateSun float (Float64 fsin fcos) b))
           = sunPosition (sky (@updateSun float (Float64 fsin fcos) b))).
Proof.
  split; [|split].
  - intros num JS b.
    destruct (updateSun_effect b) as (Hsun & Hsky & Hwater & Hgpu & Htarget & _ & Henv & _).
    repeat split; assumption.
  - intros b.
    destruct (@updateSun_effect R Exact b) as (Hsun & Hsky & Hwater & _).
    rewrite Hwater, Hsky, Hsun.
    apply unit_normalize, spherical_unit.
  - intros fsin fcos b Hs1 Hc1 Hs2 Hc2.
    destruct (@updateSun_effect float (Float64 fsin fcos) b) as (Hsun & Hsky & Hwater & _).
    destruct (sun_angles fsin fcos) as [Hpolar Hazimuth].
    rewrite Hwater, Hsky, Hsun, Hpolar, Hazimuth.
    exact (rounded_sun_is_unit fsin fcos Hs1 Hc1 Hs2 Hc2).
Qed.

(** With the nearest doubles the sun of [desktop] has length 1 in binary64. *)
Lemma updateSun_keeps_sky_and_water_consistent_witness :
  let stage := snd (@build float (Float64 sin_rounded cos_rounded) 0
                           (mkContainer [] 800%float 600%float)) in
  @length float (Float64 sin_rounded cos_rounded)
          (sun (@updateSun float (Float64 sin_rounded cos_rounded) stage)) = 1%float
  /\ sunDirection (water (@updateSun float (Float64 sin_rounded cos_rounded) stage))
     = sunPosition (sky (@updateSun float (Float64 sin_rounded cos_rounded) stage)).
Proof.
  intros stage.
  apply (proj2 (proj2 updateSun_keeps_sky_and_water_consistent) sin_rounded cos_rounded stage);
    vm_compute; reflexivity.
Defined.

(** The assumption on [Math.sin] is needed.  Start-up on [desktop] with a sine
    that is one unit in the last place low at 88 degrees: the sun vector has
    length 0.9999999999999999, not 1, and the water's normalised copy differs
    from the sky's copy in its last place. *)
Lemma sun_misses_unit_length_by_an_ulp :
  ~ exists st b,
      @boot float (Float64 sin_low cos_rounded) desktop = st
      /\ built (snd st) = Some b
      /\ (@length float (Float64 sin_low cos_rounded) (sun b) = 1%float
          \/ vy (sunDirection (water b)) = vy (sunPosition (sky b))).
Proof.
  intros (st & b & Hboot & Hb & Hsun).
  vm_compute in Hboot. subst st. cbn in Hb. injection Hb as <-.
  destruct Hsun as [Hlen | Hsame]; [revert Hlen | revert Hsame];
    vm_compute; apply float_neq; reflexivity.
Qed.

(** ** A failed model load *)

Section Failure.

Context {num : Type} {JS : JSNumber num}.
Local Open Scope js_scope.

Lemma run_while_pending (events : list (Event num)) :
  forall (st : World num * Session num) (b : Built num),
    built (snd st) = Some b ->
    animationLoop (renderer b) = true ->
    registered (self (snd st)) (mousemove (fst st)) = true ->
    modelT (snd st) = None ->
    children (scene b) = [WaterNode; SkyNode] ->
    modelLoad b = Pending ->
    existsb settlesModel events = false ->
    exists st' b',
      run events st = Returned st'
      /\ built (snd st') = Some b'
      /\ animationLoop (renderer b') = true
      /\ registered (self (snd st')) (mousemove (fst st')) = true
      /\ modelT (snd st') = None
      /\ children (scene b') = [WaterNode; SkyNode]
      /\ modelLoad b' = Pending.
Proof.
  induction events as [|e events IH]; intros st b Hb Hloop Hreg Hslot Hch Hml Hnone.
  - exists st, b. repeat split; assumption.
  - cbn [existsb] in Hnone. apply orb_false_elim in Hnone as [He Hnone].
    destruct (step_running e st b Hb Hloop Hreg)
      as (st1 & b1 & Hstep & Hb1 & Hloop1 & Hreg1 & _ & _ & Hslot1 & Hch1 & Hml1 & _).
    assert (Hnot : isModelLoaded e = false) by (destruct e; try reflexivity; discriminate He).
    destruct (IH st1 b1 Hb1 Hloop1 Hreg1) as (st2 & b2 & Hrun & Hrest); try assumption.
    + apply Hslot1; [now left | assumption].
    + rewrite Hch1; [assumption | now left].
    + rewrite Hml1, Hml. destruct e; try reflexivity; discriminate He.
    + exists st2, b2. cbn [run]. rewrite Hstep. cbn [bind]. now split.
Qed.

Lemma run_after_failure (events : list (Event num)) :
  forall (st : World num * Session num) (b : Built num),
    built (snd st) = Some b ->
    animationLoop (renderer b) = true ->
    registered (self (snd st)) (mousemove (fst st)) = true ->
    modelT (snd st) = None ->
    children (scene b) = [WaterNode; SkyNode] ->
    modelLoad b = Failed ->
    exists st' b' fs more,
      run events st = Returned st'
      /\ built (snd st') = Some b'
      /\ modelT (snd st') = None
      /\ children (scene b') = [WaterNode; SkyNode]
      /\ modelLoad b' = Failed
      /\ draws (gpu b') = draws (gpu b) ++ fs
      /\ List.length fs = frameCount events
      /\ Forall bare_sea fs
      /\ console (fst st') = console (fst st) ++ more.
Proof.
  induction events as [|e events IH]; intros st b Hb Hloop Hreg Hslot Hch Hml.
  - exists st, b, [], []. rewrite !app_nil_r. repeat split; try assumption. constructor.
  - destruct (step_running e st b Hb Hloop Hreg)
      as (st1 & b1 & Hstep & Hb1 & Hloop1 & Hreg1
          & _ & _ & Hslot1 & Hch1 & Hml1 & Hdraw1 & more1 & Hcon1 & _).
    assert (Hfailed : isModelLoaded e = false \/ modelLoad b <> Pending)
      by (right; rewrite Hml; discriminate).
    specialize (Hslot1 Hfailed Hslot). specialize (Hch1 Hfailed).
    assert (Hml1' : modelLoad b1 = Failed)
      by (rewrite Hml1, Hml; destruct e; reflexivity).
    rewrite Hch in Hch1.
    destruct (IH st1 b1 Hb1 Hloop1 Hreg1 Hslot1 Hch1 Hml1')
      as (st2 & b2 & fs & more2 & Hrun & Hb2 & Hslot2 & Hch2 & Hml2 & Hdraw2 & Hlen & Hall & Hcon2).
    exists st2, b2,
      ((if isFrame e
        then [mkFrame (children (scene b)) (modelT (snd st1)) (time_value (water b1)) (camera b1)]
        else []) ++ fs),
      (more1 ++ more2).
    cbn [run]. rewrite Hstep. cbn [bind].
    repeat split; try assumption.
    + rewrite Hdraw2, Hdraw1. now rewrite app_assoc.
    + rewrite frameCount_cons, length_app, Hlen. now destruct (isFrame e).
    + apply Forall_app. split; [|assumption].
      destruct (isFrame e); constructor; [|constructor].
      split; cbn; assumption.
    + rewrite Hcon2, Hcon1. now rewrite app_assoc.
Qed.

(** C6.  On a page with the container: let any events that do not settle the
    model load come first, then the failure, then any events at all.  The run
    returns normally throughout; the failure itself only appends the error
    line to the console and marks the load as failed; afterwards the slot is
    still empty, the scene still holds water and sky, and every animation
    frame after the failure was drawn, with water and sky and no model. *)
Theorem model_failure_is_survivable
        (w : World num) (c : Container num) (before after : list (Event num)) :
  container w = Some c ->
  existsb settlesModel before = false ->
  exists st1 b1 st2 b2 fs,
    run before (boot w) = Returned st1
    /\ built (snd st1) = Some b1
    /\ step ModelError st1
       = Returned (onModelError (fst st1), settle (set_modelLoad Failed) (snd st1))
    /\ run (ModelError :: after) st1 = Returned st2
    /\ built (snd st2) = Some b2
    /\ In (ConsoleError ErrorLoadingGLTF) (console (fst st2))
    /\ modelLoad b2 = Failed
    /\ modelT (snd st2) = None
    /\ children (scene b2) = [WaterNode; SkyNode]
    /\ draws (gpu b2) = draws (gpu b1) ++ fs
    /\ List.length fs = frameCount after
    /\ Forall bare_sea fs.
Proof.
  intros Hc Hbefore.
  destruct (boot_running w c Hc) as (b0 & Hb0 & Hloop0 & Hreg0).
  assert (Hboot : modelT (snd (boot w)) = None
                  /\ children (scene b0) = [WaterNode; SkyNode]
                  /\ modelLoad b0 = Pending).
  { rewrite (boot_eq w c Hc) in Hb0 |- *. cbn in Hb0. injection Hb0 as <-.
    split; [reflexivity|]. split; apply (build_scene (closures w) c). }
  destruct Hboot as (Hslot0 & Hch0 & Hml0).
  destruct (run_while_pending before (boot w) b0 Hb0 Hloop0 Hreg0 Hslot0 Hch0 Hml0 Hbefore)
    as (st1 & b1 & Hrun1 & Hb1 & Hloop1 & Hreg1 & Hslot1 & Hch1 & Hml1).
  destruct (step_running ModelError st1 b1 Hb1 Hloop1 Hreg1)
    as (stf & bf & Hstep & Hbf & Hloopf & Hregf
        & _ & _ & Hslotf & Hchf & Hmlf & Hdrawf & more & Hcon & Hline).
  rewrite Hml1 in Hmlf. cbn in Hmlf, Hdrawf.
  specialize (Hslotf (or_introl eq_refl) Hslot1). specialize (Hchf (or_introl eq_refl)).
  rewrite Hch1 in Hchf. rewrite (Hline eq_refl Hml1) in Hcon. rewrite app_nil_r in Hdrawf.
  destruct (run_after_failure after stf bf Hbf Hloopf Hregf Hslotf Hchf Hmlf)
    as (st2 & b2 & fs & more2 & Hrun2 & Hb2 & Hslot2 & Hch2 & Hml2 & Hdraw2 & Hlen & Hall & Hcon2).
  exists st1, b1, st2, b2, fs.
  split; [exact Hrun1|]. split; [exact Hb1|].
  split.
  { destruct st1 as [w1 s1]. cbn [fst snd] in *. cbn [step]. unfold loading, settle.
    rewrite Hb1, Hml1. reflexivity. }
  split; [cbn [run]; rewrite Hstep; exact Hrun2|].
  split; [exact Hb2|].
  split; [rewrite Hcon2, Hcon; apply in_or_app; left; apply in_or_app; right; now left|].
  repeat split; try assumption. now rewrite Hdraw2, Hdrawf.
Qed.

End Failure.

Lemma model_failure_is_survivable_witness :
  exists st1 b1 st2 b2 fs,
    @run R Exact [AnimationFrame 0%R; ModelProgress 10%R 100%R] (@boot R Exact desktop_exact)
    = Returned st1
    /\ built (snd st1) = Some b1
    /\ @step R Exact ModelError st1
       = Returned (onModelError (fst st1), settle (set_modelLoad Failed) (snd st1))
    /\ @run R Exact [ModelError; AnimationFrame 17%R; MouseMove 700%R; AnimationFrame 33%R] st1
       = Returned st2
    /\ built (snd st2) = Some b2
    /\ In (ConsoleError ErrorLoadingGLTF) (console (fst st2))
    /\ modelLoad b2 = Failed
    /\ modelT (snd st2) = None
    /\ children (scene b2) = [WaterNode; SkyNode]
    /\ draws (gpu b2) = draws (gpu b1) ++ fs
    /\ List.length fs = 2
    /\ Forall bare_sea fs.
Proof.
  exact (@model_failure_is_survivable R Exact desktop_exact (mkContainer [] 800%R 600%R)
           [AnimationFrame 0%R; ModelProgress 10%R 100%R]
           [AnimationFrame 17%R; MouseMove 700%R; AnimationFrame 33%R] eq_refl eq_refl).
Defined.

(** ** Further properties of the handlers *)

Section Handlers.

Context {num : Type} {JS : JSNumber num}.
Local Open Scope js_scope.

(** Resizing to a container of size (W, H) sets the camera aspect to W / H and
    the renderer output to (W, H); nothing else of the session changes. *)
Theorem resize_fits_container
        (c : Container num) (inner : num) (mm rs : list Listener) (con : list (LogEntry num))
        (n : nat) (b : Built num) (slot : option (Object3D num)) (mx hx : num) (id : Listener) :
  exists b',
    onWindowResize (mkWorld (Some c) inner mm rs con n) (mkSession (Some b) slot mx hx id)
    = Returned (mkSession (Some b') slot mx hx id)
    /\ aspect (camera b') = clientWidth c / clientHeight c
    /\ size (renderer b') = (clientWidth c, clientHeight c)
    /\ cposition (camera b') = cposition (camera b)
    /\ animationLoop (renderer b') = animationLoop (renderer b)
    /\ scene b' = scene b
    /\ water b' = water b.
Proof. eexists. repeat split. Qed.

(** Every frame re-aims the camera at (0, 16, 0) and moves nothing of it but
    its x coordinate. *)
Theorem render_aims_camera (now : num) (b : Built num) (slot : option (Object3D num))
                           (mx hx : num) (id : Listener) :
  exists b' slot',
    render now (mkSession (Some b) slot mx hx id) = Returned (mkSession (Some b') slot' mx hx id)
    /\ lookingAt (camera b') = Some (mkVector3 (lit 0) (lit 16) (lit 0))
    /\ vy (cposition (camera b')) = vy (cposition (camera b))
    /\ vz (cposition (camera b')) = vz (cposition (camera b))
    /\ aspect (camera b') = aspect (camera b).
Proof. unfold render. cbn [built modelT mouseX]. eexists _, _. repeat split. Qed.

(** The success callback of the model load stores the root node in the slot,
    at the origin and with scale 20, and appends it to the scene; the success
    callback of the texture load sets repeat wrapping on both axes. *)
Theorem load_success_callbacks (gltf : Object3D num) (b : Built num)
                               (slot : option (Object3D num)) (mx hx : num) (id : Listener) :
  (exists b',
      onModelLoad gltf (mkSession (Some b) slot mx hx id)
      = Returned (mkSession (Some b')
                    (Some (mkObject3D (uuid gltf) (mkVector3 (lit 0) (lit 0) (lit 0))
                                      (rotation gltf)
                                      (mkVector3 (lit 20) (lit 20) (lit 20))))
                    mx hx id)
      /\ children (scene b') = attach (ModelNode (uuid gltf)) (children (scene b))
      /\ camera b' = camera b /\ water b' = water b /\ gpu b' = gpu b)
  /\ waterNormals (water (onTextureLoad b)) = mkTexture RepeatWrapping RepeatWrapping.
Proof. split; [eexists; repeat split | reflexivity]. Qed.

End Handlers.

(** The literals of the per-frame function, as binary64 values. *)
Lemma literals_are_rounded :
  float_lit 0.001 = 0x1.0624dd2f1a9fcp-10%float
  /\ float_lit 0.015 = 0x1.eb851eb851eb8p-7%float
  /\ float_lit 0.05 = 0x1.999999999999ap-5%float
  /\ float_lit 0.51 = 0x1.051eb851eb852p-1%float
  /\ PrimFloat.div (float_lit 1.0) (float_lit 40.0) = 0x1.999999999999ap-6%float.
Proof. repeat split; vm_compute; reflexivity. Qed.

(** Forty frames after mounting on [desktop] the water phase is
    1.0000000000000004, two units in the last place above 1. *)
Theorem forty_frames_overshoot_one (fsin fcos : float -> float) :
  exists st b,
    @run float (Float64 fsin fcos) (repeat (AnimationFrame 0%float) 40)
         (@boot float (Float64 fsin fcos) desktop) = Returned st
    /\ built (snd st) = Some b
    /\ time_value (water b) = 0x1.0000000000002p+0%float
    /\ PrimFloat.eqb (time_value (water b)) 1%float = false.
Proof.
  destruct (@boot_phase float (Float64 fsin fcos) desktop (mkContainer [] 800%float 600%float)
              (repeat (AnimationFrame 0%float) 40) eq_refl)
    as (st & b & Hrun & Hb & _ & _ & Hphase).
  exists st, b. split; [exact Hrun|]. split; [exact Hb|].
  rewrite Hphase. split; vm_compute; reflexivity.
Qed.

Section Reinit.

Context {num : Type} {JS : JSNumber num}.
Local Open Scope js_scope.

Lemma addEventListener_again (l : Listener) (ls : list Listener) :
  addEventListener l (addEventListener l ls) = addEventListener l ls.
Proof.
  pose proof (registered_add l ls) as Hreg. unfold registered in Hreg.
  unfold addEventListener at 1. now rewrite Hreg.
Qed.

(** Ocean.js has no teardown.  Running [init] again on the same page registers
    the same two module-level functions, which the DOM ignores: the listener
    lists are those of the first run. *)
Theorem init_again_registers_nothing (w : World num) (c : Container num) :
  container w = Some c ->
  mousemove (fst (init (boot w))) = mousemove (fst (boot w))
  /\ resize (fst (init (boot w))) = resize (fst (boot w))
  /\ registered (self (snd (boot w))) (mousemove (fst (boot w))) = true
  /\ registered (self (snd (boot w))) (resize (fst (boot w))) = true.
Proof.
  intros Hc. rewrite (boot_eq w c Hc). unfold init.
  cbn [container set_resize set_mousemove set_container self].
  destruct (build (closures w) (fst (build (closures w) c))) as [c2 b2].
  cbn [fst snd mousemove resize self set_resize set_mousemove set_container set_built].
  rewrite !addEventListener_again. repeat split; apply registered_add.
Qed.

End Reinit.

Lemma init_again_registers_nothing_witness :
  mousemove (fst (@init R Exact (@boot R Exact desktop_exact)))
  = mousemove (fst (@boot R Exact desktop_exact))
  /\ resize (fst (@init R Exact (@boot R Exact desktop_exact)))
     = resize (fst (@boot R Exact desktop_exact))
  /\ registered (self (snd (@boot R Exact desktop_exact)))
                (mousemove (fst (@boot R Exact desktop_exact))) = true
  /\ registered (self (snd (@boot R Exact desktop_exact)))
                (resize (fst (@boot R Exact desktop_exact))) = true.
Proof.
  exact (@init_again_registers_nothing R Exact desktop_exact (mkContainer [] 800%R 600%R) eq_refl).
Defined.

(** ** No handler throws *)

Section Safety.

Context {num : Type} {JS : JSNumber num}.
Local Open Scope js_scope.

Lemma fresh_unregistered (id : Listener) (ls : list Listener) :
  Forall (fun l => (l < id)%nat) ls -> registered id ls = false.
Proof.
  intros Hls. unfold registered.
  induction Hls as [|l ls Hl _ IH]; [reflexivity|].
  cbn. rewrite IH, orb_false_r. apply Nat.eqb_neq. lia.
Qed.

(** While nothing is built and no handler of the session is registered, an
    event changes neither the session nor the console. *)
Lemma step_unbuilt (e : Event num) (w : World num) (s : Session num) :
  built s = None ->
  registered (self s) (mousemove w) = false ->
  registered (self s) (resize w) = false ->
  exists w',
    step e (w, s) = Returned (w', s)
    /\ mousemove w' = mousemove w
    /\ resize w' = resize w
    /\ console w' = console w.
Proof.
  destruct w as [c iw mm rs con n], s as [bo slot mx hx id]. cbn [built self mousemove resize].
  unfold registered. intros -> Hmm Hrs.
  destruct e; unfold step, loading, looping, resized, registered; cbn;
    rewrite ?Hmm; try (eexists; repeat split; reflexivity).
  destruct c as [c|]; cbn; rewrite Hrs; eexists; repeat split; reflexivity.
Qed.

Lemma run_unbuilt (events : list (Event num)) :
  forall (w : World num) (s : Session num),
    built s = None ->
    registered (self s) (mousemove w) = false ->
    registered (self s) (resize w) = false ->
    exists w',
      run events (w, s) = Returned (w', s)
      /\ mousemove w' = mousemove w
      /\ resize w' = resize w
      /\ console w' = console w.
Proof.
  induction events as [|e events IH]; intros w s Hb Hmm Hrs.
  - exists w. repeat split.
  - destruct (step_unbuilt e w s Hb Hmm Hrs) as (w1 & Hstep & Hmm1 & Hrs1 & Hcon1).
    destruct (IH w1 s Hb) as (w2 & Hrun & Hmm2 & Hrs2 & Hcon2);
      [now rewrite Hmm1 | now rewrite Hrs1 |].
    exists w2. cbn [run]. rewrite Hstep. cbn [bind].
    repeat split; congruence.
Qed.

Lemma boot_unbuilt (w : World num) :
  container w = None ->
  boot w = (log (ConsoleError NoContainer) (allocate w),
            mkSession None None (lit 0) (innerWidth w / lit 2) (closures w)).
Proof. intros Hc. unfold boot, module_init, init. cbn [allocate container]. now rewrite Hc. Qed.

(** On a page without the container, whatever the browser delivers after the
    aborted [init] is ignored: the run returns, the variables stay as the
    module left them (nothing built, empty slot, offset 0), no listener is
    added, and the console holds the one error line of [init] and nothing
    more. *)
Theorem aborted_init_is_inert (w : World num) (events : list (Event num)) :
  container w = None ->
  Forall (fun l => (l < closures w)%nat) (mousemove w) ->
  Forall (fun l => (l < closures w)%nat) (resize w) ->
  exists w',
    run events (boot w)
    = Returned (w', mkSession None None (lit 0) (innerWidth w / lit 2) (closures w))
    /\ mousemove w' = mousemove w
    /\ resize w' = resize w
    /\ console w' = console w ++ [ConsoleError NoContainer].
Proof.
  intros Hc Hmm Hrs. rewrite (boot_unbuilt w Hc).
  apply run_unbuilt; [reflexivity | |]; apply fresh_unregistered; assumption.
Qed.

(** From start-up on any page, with or without the container, no run of
    browser events makes a handler throw. *)
Theorem run_never_throws (w : World num) (events : list (Event num)) :
  Forall (fun l => (l < closures w)%nat) (mousemove w) ->
  Forall (fun l => (l < closures w)%nat) (resize w) ->
  exists st, run events (boot w) = Returned st.
Proof.
  intros Hmm Hrs. destruct (container w) as [c|] eqn:Hc.
  - destruct (boot_phase w c events Hc) as (st & _ & Hrun & _). now exists st.
  - rewrite (boot_unbuilt w Hc).
    destruct (run_unbuilt events (log (ConsoleError NoContainer) (allocate w))
                (mkSession None None (lit 0) (innerWidth w / lit 2) (closures w)))
      as (w' & Hrun & _); [reflexivity | | | eauto]; apply fresh_unregistered; assumption.
Qed.

End Safety.

Lemma aborted_init_is_inert_witness :
  exists w',
    @run R Exact [MouseMove 700%R; AnimationFrame 0%R; WindowResize 500%R 0%R 0%R; ModelError]
         (@boot R Exact (mkWorld None 1000%R [] [] [] 0))
    = Returned (w', mkSession None None (@lit R Exact 0) (1000 / @lit R Exact 2)%R 0)
    /\ mousemove w' = []
    /\ resize w' = []
    /\ console w' = [ConsoleError NoContainer].
Proof.
  exact (@aborted_init_is_inert R Exact (mkWorld None 1000%R [] [] [] 0)
           [MouseMove 700%R; AnimationFrame 0%R; WindowResize 500%R 0%R 0%R; ModelError]
           eq_refl (Forall_nil _) (Forall_nil _)).
Defined.

Lemma run_never_throws_witness :
  exists st,
    @run R Exact [WindowResize 500%R 400%R 300%R; AnimationFrame 0%R; TextureError]
         (@boot R Exact desktop_exact) = Returned st.
Proof.
  exact (@run_never_throws R Exact desktop_exact
           [WindowResize 500%R 400%R 300%R; AnimationFrame 0%R; TextureError]
           (Forall_nil _) (Forall_nil _)).
Defined.

(** ** What start-up builds, and what the cleanup undoes *)

Section Mounting.

Context {num : Type} {JS : JSNumber num}.
Local Open Scope js_scope.

Lemma build_container (owner : Listener) (c : Container num) :
  fst (build owner c) = mkContainer [Canvas owner] (clientWidth c) (clientHeight c).
Proof. destruct c as [[|e els] cw ch]; reflexivity. Qed.

Lemma build_stage (owner : Listener) (c : Container num) :
  size (renderer (snd (build owner c))) = (clientWidth c, clientHeight c)
  /\ aspect (camera (snd (build owner c))) = clientWidth c / clientHeight c
  /\ cposition (camera (snd (build owner c))) = mkVector3 (lit 30) (lit 30) (lit 120)
  /\ sceneEnv (snd (build owner c)) = []
  /\ environment (scene (snd (build owner c))) = Some 0
  /\ renderTarget (snd (build owner c)) = Some 0
  /\ textureLoad (snd (build owner c)) = Pending.
Proof. destruct c as [[|e els] cw ch]; repeat split; reflexivity. Qed.

(** Start-up of Ocean.js on a page with the container: whatever children the
    container had are replaced by the one canvas of the renderer; the renderer
    and the camera aspect take the container's size; the camera stands at
    (30, 30, 120); the scene holds water and sky, in that order, lit by the
    environment baked once; both loads are in flight, the slot is empty, and
    nothing is logged. *)
Theorem boot_builds_the_scene (w : World num) (c : Container num) :
  container w = Some c ->
  exists b,
    built (snd (boot w)) = Some b
    /\ container (fst (boot w))
       = Some (mkContainer [Canvas (self (snd (boot w)))] (clientWidth c) (clientHeight c))
    /\ size (renderer b) = (clientWidth c, clientHeight c)
    /\ aspect (camera b) = clientWidth c / clientHeight c
    /\ cposition (camera b) = mkVector3 (lit 30) (lit 30) (lit 120)
    /\ children (scene b) = [WaterNode; SkyNode]
    /\ sceneEnv b = []
    /\ environment (scene b) = Some 0
    /\ gpu b = [FromScene 0 [SkyNode]]
    /\ textureLoad b = Pending
    /\ modelLoad b = Pending
    /\ modelT (snd (boot w)) = None
    /\ console (fst (boot w)) = console w.
Proof.
  intros Hc. rewrite (boot_eq w c Hc). exists (snd (build (closures w) c)).
  cbn [fst snd built modelT self container console set_resize set_mousemove set_container
       allocate].
  rewrite build_container.
  destruct (build_scene (closures w) c) as (Hch & _ & Hml & _ & _ & Hgpu).
  destruct (build_stage (closures w) c) as (Hsz & Has & Hpos & Henv & Hen & _ & Htl).
  repeat split; assumption.
Qed.

Lemma removed_unregistered (id l : Listener) (ls : list Listener) :
  registered l (removeEventListener id ls)
  = if Nat.eqb id l then false else registered l ls.
Proof.
  unfold registered, removeEventListener.
  destruct (Nat.eqb id l) eqn:Eil.
  - apply Nat.eqb_eq in Eil. subst l.
    induction ls as [|k ls IH]; [reflexivity|].
    cbn. destruct (Nat.eqb id k) eqn:Eik; cbn; [exact IH|].
    now rewrite Eik, IH.
  - induction ls as [|k ls IH]; [reflexivity|].
    cbn. destruct (Nat.eqb id k) eqn:Eik; cbn; rewrite IH; [|reflexivity].
    apply Nat.eqb_eq in Eik. subst k. now rewrite Nat.eqb_sym, Eil.
Qed.

Lemma traverse_disposes_no_target (nodes : list Node) (t : nat) :
  ~ In (@DisposeTarget num t) (flat_map Jsx.traverse_dispose nodes).
Proof.
  intros Hin. apply in_flat_map in Hin as (n & _ & Hn).
  destruct n; cbn in Hn; intuition discriminate.
Qed.

(** The cleanup of the React variant, on any built session: it disposes the
    renderer and then walks the scene.  Water and sky, where they are children
    of the scene, get their geometry and their material disposed; an attached
    model gets the walk through its tree.  No render target is disposed, so
    the environment baked by [updateSun] stays alive, and the scene graph, the
    environment and the model slot are left as they were. *)
Theorem cleanup_disposes_scene_not_environment
        (w : World num) (b : Built num) (slot : option (Object3D num))
        (mx hx : num) (id : Listener) :
  exists w' b',
    Jsx.cleanup (w, mkSession (Some b) slot mx hx id) = (w', mkSession (Some b') slot mx hx id)
    /\ gpu b' = gpu b ++ [DisposeRenderer; ForceContextLoss]
                      ++ flat_map Jsx.traverse_dispose (children (scene b))
    /\ (forall n, (n = WaterNode \/ n = SkyNode) -> In n (children (scene b)) ->
                  In (DisposeGeometry n) (gpu b') /\ In (DisposeMaterial n) (gpu b'))
    /\ (forall u, In (ModelNode u) (children (scene b)) ->
                  In (DisposeWithin (ModelNode u)) (gpu b')
                  /\ ~ In (@DisposeGeometry num (ModelNode u)) (flat_map Jsx.traverse_dispose
                                                                    (children (scene b))))
    /\ (forall t, In (DisposeTarget t) (gpu b') -> In (DisposeTarget t) (gpu b))
    /\ scene b' = scene b
    /\ renderTarget b' = renderTarget b
    /\ water b' = water b.
Proof.
  destruct b as [cam sc rend wat sn sk env rt tg tl ml calls].
  unfold Jsx.cleanup. cbn [built self].
  eexists _, _. split; [reflexivity|].
  cbn [gpu call set_renderer scene renderTarget water children].
  rewrite <- app_assoc.
  split; [reflexivity|]. split.
  { intros n Hn Hin.
    split; apply in_or_app; right; apply in_or_app; right;
      apply in_flat_map; exists n; (split; [exact Hin|]);
      destruct Hn as [-> | ->]; cbn; auto. }
  split.
  { intros u Hin. split.
    - apply in_or_app; right; apply in_or_app; right.
      apply in_flat_map. exists (ModelNode u). split; [exact Hin | now left].
    - intros Hbad. apply in_flat_map in Hbad as (n & _ & Hn).
      destruct n; cbn in Hn; intuition discriminate. }
  split.
  { intros t Hin. apply in_app_or in Hin as [Hin | Hin]; [exact Hin|].
    apply in_app_or in Hin as [Hin | Hin].
    - cbn in Hin. intuition discriminate.
    - now apply traverse_disposes_no_target in Hin. }
  repeat split.
Qed.

(** The cleanup removes this session's two listeners and this session's
    canvas, and nothing else of the page: other listeners stay registered,
    other elements stay in the container, the console is untouched.  On a
    session that was never built it stops at the listeners. *)
Theorem cleanup_removes_only_its_own (w : World num) (s : Session num) :
  registered (self s) (mousemove (fst (Jsx.cleanup (w, s)))) = false
  /\ registered (self s) (resize (fst (Jsx.cleanup (w, s)))) = false
  /\ (forall l, l <> self s ->
        registered l (mousemove (fst (Jsx.cleanup (w, s)))) = registered l (mousemove w)
        /\ registered l (resize (fst (Jsx.cleanup (w, s)))) = registered l (resize w))
  /\ console (fst (Jsx.cleanup (w, s))) = console w
  /\ (built s = None ->
        container (fst (Jsx.cleanup (w, s))) = container w
        /\ snd (Jsx.cleanup (w, s)) = s)
  /\ (forall b c, built s = Some b -> container w = Some c ->
        exists c',
          container (fst (Jsx.cleanup (w, s))) = Some c'
          /\ clientWidth c' = clientWidth c
          /\ clientHeight c' = clientHeight c
          /\ forall e, In e (elements c') <-> In e (elements c) /\ e <> Canvas (self s)).
Proof.
  destruct w as [co iw mm rs con n], s as [bo slot mx hx id].
  unfold Jsx.cleanup. cbn [built self mousemove resize container console set_mousemove set_resize].
  assert (Hown : forall ls, registered id (removeEventListener id ls) = false)
    by (intros ls; rewrite removed_unregistered, Nat.eqb_refl; reflexivity).
  assert (Hother : forall l ls, l <> id ->
                     registered l (removeEventListener id ls) = registered l ls).
  { intros l ls Hl. rewrite removed_unregistered.
    destruct (Nat.eqb id l) eqn:E; [|reflexivity].
    apply Nat.eqb_eq in E. congruence. }
  destruct bo as [b|]; [destruct co as [c|]|]; cbn;
    (split; [apply Hown|]); (split; [apply Hown|]);
    (split; [intros l Hl; split; apply Hother; exact Hl|]);
    (split; [reflexivity|]); (split; [intros Hb; try discriminate Hb; split; reflexivity|]);
    intros b0 c0 Hb Hc; try discriminate.
  injection Hc as <-. eexists. split; [reflexivity|]. cbn [clientWidth clientHeight elements].
  split; [reflexivity|]. split; [reflexivity|].
  intros e. rewrite filter_In. split.
  - intros [Hin Hkept]. split; [exact Hin|]. intros ->. cbn in Hkept.
    now rewrite Nat.eqb_refl in Hkept.
  - intros [Hin Hne]. split; [exact Hin|].
    destruct e as [o|]; [|reflexivity]. cbn.
    destruct (Nat.eqb o id) eqn:E; [|reflexivity].
    apply Nat.eqb_eq in E. congruence.
Qed.

(** Mount, then unmount, on a page whose listeners are not the component's:
    the listener lists and the console are as before the mount, but the
    container is left empty: the children it had before the mount are not
    brought back. *)
Theorem mount_then_cleanup_empties_the_container (w : World num) (c : Container num) :
  container w = Some c ->
  Forall (fun l => (l < closures w)%nat) (mousemove w) ->
  Forall (fun l => (l < closures w)%nat) (resize w) ->
  exists w1 s1 w2 s2,
    Jsx.useEffect w = (w1, Some s1)
    /\ Jsx.cleanup (w1, s1) = (w2, s2)
    /\ container w2 = Some (mkContainer [] (clientWidth c) (clientHeight c))
    /\ mousemove w2 = mousemove w
    /\ resize w2 = resize w
    /\ console w2 = console w
    /\ innerWidth w2 = innerWidth w
    /\ looping s2 = false.
Proof.
  intros Hc Hmm Hrs.
  rewrite (useEffect_eq w c Hc), (add_fresh _ _ Hmm), (add_fresh _ _ Hrs), build_container.
  destruct (build (closures w) c) as [c1 b1]. cbn [fst snd].
  eexists _, _, _, _. split; [reflexivity|].
  unfold Jsx.cleanup.
  cbn [built self mousemove resize container set_resize set_mousemove set_container allocate].
  rewrite (remove_fresh _ _ Hmm), (remove_fresh _ _ Hrs).
  split; [reflexivity|]. cbn. rewrite Nat.eqb_refl. repeat split.
Qed.

End Mounting.

(** ** Model motion, late and repeated events *)

Section Motion.

Context {num : Type} {JS : JSNumber num}.
Local Open Scope js_scope.

Lemma frame_with_model (now : num) (b : Built num) (m : Object3D num)
                       (mx hx : num) (id : Listener) :
  exists b',
    animate now (mkSession (Some b) (Some m) mx hx id)
    = Returned (mkSession (Some b') (Some (float_model (now * lit 0.001) m)) mx hx id).
Proof. unfold animate, render. cbn [built modelT mouseX]. eexists. reflexivity. Qed.

Lemma float_model_overwrites (t t' : num) (m : Object3D num) :
  float_model t (float_model t' m) = float_model t m.
Proof. destruct m as [u [px py pz] [rx ry rz] sc]. reflexivity. Qed.

Lemma frames_with_model (clock : list num) :
  forall (now : num) (b : Built num) (m : Object3D num) (mx hx : num) (id : Listener),
  exists b',
    frames (clock ++ [now]) (mkSession (Some b) (Some m) mx hx id)
    = Returned (mkSession (Some b') (Some (float_model (now * lit 0.001) m)) mx hx id).
Proof.
  induction clock as [|first clock IH]; intros now b m mx hx id.
  - destruct (frame_with_model now b m mx hx id) as (b1 & Hstep).
    exists b1. cbn [app frames]. rewrite Hstep. reflexivity.
  - destruct (frame_with_model first b m mx hx id) as (b1 & Hstep).
    destruct (IH now b1 (float_model (first * lit 0.001) m) mx hx id) as (b2 & Hrun).
    exists b2. cbn [app frames]. rewrite Hstep. cbn [bind].
    rewrite Hrun, float_model_overwrites. reflexivity.
Qed.

(** The motion of the model is driven by the clock alone: after any number of
    frames the model's transform is what a single frame at the last clock
    reading gives, whatever the earlier readings and however many frames there
    were; its x and z position and its scale are never written. *)
Theorem model_motion_depends_on_last_reading_only
        (clock : list num) (now : num) (b : Built num) (m : Object3D num)
        (mx hx : num) (id : Listener) :
  let t := now * lit 0.001 in
  exists b',
    frames (clock ++ [now]) (mkSession (Some b) (Some m) mx hx id)
    = Returned
        (mkSession (Some b')
           (Some (mkObject3D (uuid m)
                    (mkVector3 (vx (position m)) (Math_sin t * lit 20 + lit 5) (vz (position m)))
                    (mkVector3 (t * lit 0.51) (t * lit 0.51) (t * lit 0.5))
                    (scale m)))
           mx hx id).
Proof.
  intros t. destruct (frames_with_model clock now b m mx hx id) as (b' & Hrun).
  exists b'. rewrite Hrun. destruct m as [u [px py pz] [rx ry rz] sc]. reflexivity.
Qed.

Lemma float_model_anchored (t : num) (gltf m : Object3D num) :
  anchored gltf m -> anchored gltf (float_model t m).
Proof.
  destruct m as [u [px py pz] [rx ry rz] sc]. unfold anchored. cbn. tauto.
Qed.

(** Once the load is settled, no event empties the slot or moves the model
    away from where the success callback put it. *)
Lemma step_anchored (e : Event num) (w : World num) (s : Session num) (b : Built num)
                    (gltf m : Object3D num) :
  built s = Some b ->
  modelLoad b <> Pending ->
  modelT s = Some m ->
  anchored gltf m ->
  match step e (w, s) with
  | Returned (_, s') => exists m', modelT s' = Some m' /\ anchored gltf m'
  | Threw _ => True
  end.
Proof.
  destruct w as [co iw mm rs con n], s as [bo slot mx hx id]. cbn [built modelT].
  intros -> Hml -> Hm.
  destruct b as [cam sc rend wat sn sk env rt tg tl ml calls]. cbn in Hml.
  destruct ml; try congruence;
    destruct e;
    unfold step, onWindowResize, resized, loading, looping, settle, animate, render; cbn;
    repeat match goal with
           | |- context [if ?c then _ else _] => destruct c; cbn
           | |- context [match ?c with Some _ => _ | None => _ end] => destruct c; cbn
           end;
    eexists; (split; [reflexivity | first [exact Hm | apply float_model_anchored, Hm]]).
Qed.

Lemma step_model_loaded (gltf : Object3D num) (w : World num) (s : Session num)
                        (b : Built num) :
  built s = Some b ->
  modelLoad b = Pending ->
  exists s' b' m,
    step (ModelLoaded gltf) (w, s) = Returned (w, s')
    /\ built s' = Some b'
    /\ modelT s' = Some m
    /\ anchored gltf m
    /\ rotation m = rotation gltf
    /\ children (scene b') = attach (ModelNode (uuid gltf)) (children (scene b))
    /\ modelLoad b' = Loaded
    /\ animationLoop (renderer b') = animationLoop (renderer b)
    /\ self s' = self s.
Proof.
  destruct s as [bo slot mx hx id]. cbn [built]. intros -> Hml.
  destruct b as [cam sc rend wat sn sk env rt tg tl ml calls]. cbn in Hml. subst ml.
  eexists _, _, _. cbn. repeat split.
Qed.

Lemma run_anchored (events : list (Event num)) :
  forall (st : World num * Session num) (b : Built num) (gltf m : Object3D num)
         (nodes : list Node),
    built (snd st) = Some b ->
    animationLoop (renderer b) = true ->
    registered (self (snd st)) (mousemove (fst st)) = true ->
    modelLoad b = Loaded ->
    modelT (snd st) = Some m ->
    anchored gltf m ->
    children (scene b) = nodes ->
    exists st' b' m',
      run events st = Returned st'
      /\ built (snd st') = Some b'
      /\ modelLoad b' = Loaded
      /\ modelT (snd st') = Some m'
      /\ anchored gltf m'
      /\ children (scene b') = nodes.
Proof.
  induction events as [|e events IH]; intros st b gltf m nodes Hb Hloop Hreg Hml Hslot Hm Hch.
  - exists st, b, m. split; [reflexivity | tauto].
  - destruct (step_running e st b Hb Hloop Hreg)
      as (st1 & b1 & Hstep & Hb1 & Hloop1 & Hreg1 & _ & _ & _ & Hch1 & Hml1 & _).
    assert (Hsettled : modelLoad b <> Pending) by (rewrite Hml; discriminate).
    pose proof (step_anchored e (fst st) (snd st) b gltf m Hb Hsettled Hslot Hm) as Hkeep.
    rewrite <- surjective_pairing, Hstep in Hkeep.
    destruct st1 as [w1 s1]. destruct Hkeep as (m1 & Hslot1 & Hm1).
    assert (Hml1' : modelLoad b1 = Loaded) by (rewrite Hml1, Hml; destruct e; reflexivity).
    destruct (IH (w1, s1) b1 gltf m1 nodes Hb1 Hloop1 Hreg1 Hml1' Hslot1 Hm1)
      as (st2 & b2 & m2 & Hrun & Hrest).
    { rewrite Hch1; [exact Hch | now right]. }
    exists st2, b2, m2. cbn [run]. rewrite Hstep. cbn [bind]. now split.
Qed.

(** On a page with the container: once the model has loaded, then through
    any later events (further load reports included) the slot holds that same
    node, at x = z = 0 and with scale 20, and the scene holds water, sky and
    that one model node. *)
Theorem loaded_model_stays_anchored
        (w : World num) (c : Container num) (before after : list (Event num))
        (gltf : Object3D num) :
  container w = Some c ->
  existsb settlesModel before = false ->
  exists st b m,
    run (before ++ ModelLoaded gltf :: after) (boot w) = Returned st
    /\ built (snd st) = Some b
    /\ modelLoad b = Loaded
    /\ modelT (snd st) = Some m
    /\ anchored gltf m
    /\ children (scene b) = [WaterNode; SkyNode; ModelNode (uuid gltf)].
Proof.
  intros Hc Hbefore.
  destruct (boot_running w c Hc) as (b0 & Hb0 & Hloop0 & Hreg0).
  assert (Hboot : modelT (snd (boot w)) = None
                  /\ children (scene b0) = [WaterNode; SkyNode]
                  /\ modelLoad b0 = Pending).
  { rewrite (boot_eq w c Hc) in Hb0 |- *. cbn in Hb0. injection Hb0 as <-.
    split; [reflexivity|]. split; apply (build_scene (closures w) c). }
  destruct Hboot as (Hslot0 & Hch0 & Hml0).
  destruct (run_while_pending before (boot w) b0 Hb0 Hloop0 Hreg0 Hslot0 Hch0 Hml0 Hbefore)
    as ([w1 s1] & b1 & Hrun1 & Hb1 & Hloop1 & Hreg1 & _ & Hch1 & Hml1).
  cbn [fst snd] in *.
  destruct (step_model_loaded gltf w1 s1 b1 Hb1 Hml1)
    as (s2 & b2 & m2 & Hstep & Hb2 & Hslot2 & Hm2 & _ & Hch2 & Hml2 & Hloop2 & Hself2).
  rewrite Hch1 in Hch2. rewrite Hloop1 in Hloop2.
  destruct (run_anchored after (w1, s2) b2 gltf m2
              [WaterNode; SkyNode; ModelNode (uuid gltf)])
    as (st3 & b3 & m3 & Hrun3 & Hrest); try assumption.
  { cbn [fst snd]. now rewrite Hself2. }
  exists st3, b3, m3. split; [|exact Hrest].
  assert (Happ : forall (xs ys : list (Event num)) st st',
             run xs st = Returned st' -> run (xs ++ ys) st = run ys st').
  { induction xs as [|x xs IHxs]; intros ys st st' Hxs.
    - cbn in Hxs. now injection Hxs as ->.
    - cbn [app run] in *. destruct (step x st) as [st1|err]; [|discriminate Hxs].
      cbn [bind] in *. now apply IHxs. }
  rewrite (Happ _ _ _ _ Hrun1). cbn [run]. rewrite Hstep. exact Hrun3.
Qed.

End Motion.

(** ** Repeated sun updates *)

Section Baking.

Context {num : Type} {JS : JSNumber num}.
Local Open Scope js_scope.

Lemma Node_eqb_refl (n : Node) : Node_eqb n n = true.
Proof. destruct n; cbn; auto using Nat.eqb_refl. Qed.

Lemma not_in_detach (n : Node) (nodes : list Node) : ~ In n (detach n nodes).
Proof.
  unfold detach. intros Hin. apply filter_In in Hin as [_ Hne].
  now rewrite Node_eqb_refl in Hne.
Qed.

Lemma detach_detach (n : Node) (nodes : list Node) :
  detach n (detach n nodes) = detach n nodes.
Proof.
  unfold detach. induction nodes as [|k nodes IH]; [reflexivity|].
  cbn. destruct (Node_eqb n k) eqn:E; cbn; [exact IH|]. now rewrite E, IH.
Qed.

Lemma detach_attach (n : Node) (nodes : list Node) :
  detach n (attach n nodes) = detach n nodes.
Proof.
  unfold attach. unfold detach at 1. rewrite filter_app. cbn.
  rewrite Node_eqb_refl. cbn. rewrite app_nil_r. apply detach_detach.
Qed.

(** [updateSun] lends the sky to the scratch scene for the bake and gives it
    back: the environment is generated from a scene that contains the sky;
    afterwards the sky is the last child of the main scene, whose other
    children keep their order, and the scratch scene does not hold it. *)
Theorem updateSun_returns_the_sky (b : Built num) :
  children (scene (updateSun b)) = detach SkyNode (children (scene b)) ++ [SkyNode]
  /\ sceneEnv (updateSun b) = detach SkyNode (sceneEnv b)
  /\ ~ In SkyNode (sceneEnv (updateSun b))
  /\ exists env, In (FromScene (targets b) env) (gpu (updateSun b)) /\ In SkyNode env.
Proof.
  destruct b as [cam sc rend wat sn sk env rt tg tl ml calls].
  assert (Hch : children (scene (updateSun
                  (mkBuilt cam sc rend wat sn sk env rt tg tl ml calls)))
                = attach SkyNode (detach SkyNode (children sc)))
    by (destruct rt; reflexivity).
  assert (Henv : sceneEnv (updateSun (mkBuilt cam sc rend wat sn sk env rt tg tl ml calls))
                 = detach SkyNode (attach SkyNode env))
    by (destruct rt; reflexivity).
  rewrite Hch, Henv, detach_attach. unfold attach at 1. rewrite detach_detach.
  split; [reflexivity|]. split; [reflexivity|]. split; [apply not_in_detach|].
  exists (attach SkyNode env). split.
  - destruct rt; unfold updateSun; cbn; rewrite ?in_app_iff; cbn; auto.
  - unfold attach. apply in_or_app. right. now left.
Qed.

Lemma NoDup_snoc (x : nat) (l : list nat) : NoDup l -> ~ In x l -> NoDup (l ++ [x]).
Proof.
  induction l as [|y l IH]; intros Hl Hx; cbn.
  - constructor; [intros [] | constructor].
  - inversion Hl as [|? ? Hy Hl']; subst. constructor.
    + rewrite in_app_iff. cbn. intros [Hin | [-> | []]]; [now apply Hy | apply Hx; now left].
    + apply IH; [exact Hl' | intros Hin; apply Hx; now right].
Qed.

Lemma baked_app (a b : list (GpuCall num)) : baked (a ++ b) = baked a ++ baked b.
Proof. unfold baked. apply flat_map_app. Qed.

Lemma disposed_app (a b : list (GpuCall num)) : disposed (a ++ b) = disposed a ++ disposed b.
Proof. unfold disposed. apply flat_map_app. Qed.

Lemma updateSun_tidy (b : Built num) : tidy b -> tidy (updateSun b).
Proof.
  destruct (updateSun_effect b) as (_ & _ & _ & Hgpu & Htarget & Htargets & _).
  unfold tidy. rewrite Hgpu, Htarget, Htargets, !baked_app, !disposed_app.
  intros (Hbaked & Hold & Hcur & Hnodup).
  destruct (renderTarget b) as [old|] eqn:Hrt; cbn; rewrite ?app_nil_r.
  - destruct (Hcur old eq_refl) as [Hlt Hfresh].
    split; [|split; [|split]].
    + intros t Hin. apply in_app_or in Hin as [Hin | [<- | []]]; [|now left].
      right. apply in_or_app. destruct (Hbaked t Hin) as [Heq | Hd]; [|now left].
      injection Heq as ->. right. now left.
    + intros t Hin. apply in_app_or in Hin as [Hin | [Hsame | []]]; [apply Hold in Hin|]; lia.
    + intros t Heq. injection Heq as <-. split; [lia|].
      intros Hin. apply in_app_or in Hin as [Hin | [Hsame | []]]; [apply Hold in Hin|]; lia.
    + now apply NoDup_snoc.
  - split; [|split; [|split]].
    + intros t Hin. apply in_app_or in Hin as [Hin | [<- | []]]; [|now left].
      right. destruct (Hbaked t Hin) as [Heq | Hd]; [discriminate Heq | exact Hd].
    + intros t Hin. apply Hold in Hin. lia.
    + intros t Heq. injection Heq as <-. split; [lia|].
      intros Hin. apply Hold in Hin. lia.
    + exact Hnodup.
Qed.

(** However often [updateSun] runs, render targets do not pile up: if the
    targets were in order before (all but the current one disposed, none
    twice, the current one not), they are in order after [k] more calls;
    every call takes a new target number, and after a call the newest target
    is both the current one and the scene's environment. *)
Theorem repeated_updateSun_keeps_one_target (b : Built num) (k : nat) :
  tidy b ->
  tidy (Nat.iter k updateSun b)
  /\ targets (Nat.iter k updateSun b) = (targets b + k)%nat
  /\ renderTarget (Nat.iter (S k) updateSun b) = Some (targets b + k)%nat
  /\ environment (scene (Nat.iter (S k) updateSun b)) = Some (targets b + k)%nat.
Proof.
  intros Hb.
  assert (Hk : tidy (Nat.iter k updateSun b)
               /\ targets (Nat.iter k updateSun b) = (targets b + k)%nat).
  { induction k as [|k [IHtidy IHt]]; [split; [exact Hb | cbn; lia]|].
    rewrite Nat.iter_succ.
    destruct (updateSun_effect (Nat.iter k updateSun b)) as (_ & _ & _ & _ & _ & Ht & _).
    split; [now apply updateSun_tidy | rewrite Ht, IHt; lia]. }
  destruct Hk as [Htidy Ht]. split; [exact Htidy|]. split; [exact Ht|].
  rewrite Nat.iter_succ.
  destruct (updateSun_effect (Nat.iter k updateSun b)) as (_ & _ & _ & _ & Hrt & _ & Henv & _).
  now rewrite Hrt, Henv, Ht.
Qed.

(** The scene as [init] builds it has its one target in order, and a second
    call of [updateSun] on it disposes that target before it generates the
    next. *)
Lemma second_bake_disposes_first (owner : Listener) (c : Container num) :
  tidy (snd (build owner c))
  /\ gpu (updateSun (snd (build owner c)))
     = [FromScene 0 [SkyNode]; DisposeTarget 0; FromScene 1 [SkyNode]].
Proof.
  destruct c as [[|e els] cw ch]; (split; [|reflexivity]);
    unfold tidy; cbn;
    (split; [intros t [<- | []]; now left|]);
    (split; [intros t []|]);
    (split; [intros t Heq; injection Heq as <-; split; [lia | intros []] | constructor]).
Qed.

End Baking.

Lemma repeated_updateSun_keeps_one_target_witness :
  let stage := snd (@build R Exact 0 (mkContainer [] 800%R 600%R)) in
  tidy (Nat.iter 2 (@updateSun R Exact) stage)
  /\ targets (Nat.iter 2 (@updateSun R Exact) stage) = (targets stage + 2)%nat
  /\ renderTarget (Nat.iter 3 (@updateSun R Exact) stage) = Some (targets stage + 2)%nat
  /\ environment (scene (Nat.iter 3 (@updateSun R Exact) stage)) = Some (targets stage + 2)%nat.
Proof.
  intros stage.
  apply (@repeated_updateSun_keeps_one_target R Exact stage 2).
  unfold tidy; cbn.
  split; [intros t [<- | []]; now left|].
  split; [intros t []|].
  split; [intros t Heq; injection Heq as <-; split; [lia | intros []] | constructor].
Defined.

(** ** Console-only events *)

Section Console.

Context {num : Type} {JS : JSNumber num}.
Local Open Scope js_scope.

Lemma step_agrees (e : Event num) (w w' : World num) (s : Session num) :
  same_but_console w w' -> agree (step e (w, s)) (step e (w', s)).
Proof.
  destruct w as [co iw mm rs con n], w' as [co' iw' mm' rs' con' n'].
  unfold same_but_console. cbn. intros (<- & <- & <- & <- & <-).
  destruct s as [[b|] slot mx hx id]; destruct co as [c|]; destruct e;
    unfold agree, step, onWindowResize, resized, loading, looping, settle, animate, render,
           onModelLoad, same_but_console; cbn;
    repeat match goal with
           | |- context [if ?c then _ else _] => destruct c; cbn
           end;
    repeat split.
Qed.

Lemma step_informational (e : Event num) (w : World num) (s : Session num) :
  informational e = true ->
  exists w', step e (w, s) = Returned (w', s) /\ same_but_console w' w.
Proof.
  destruct w as [co iw mm rs con n], s as [[b|] slot mx hx id];
    destruct e; try discriminate; intros _;
    unfold step, loading, same_but_console; cbn;
    repeat match goal with
           | |- context [if ?c then _ else _] => destruct c; cbn
           end;
    eexists; split; try reflexivity; repeat split.
Qed.

Lemma run_agrees (events : list (Event num)) :
  forall (w w' : World num) (s : Session num),
    same_but_console w w' ->
    agree (run events (w, s))
          (run (filter (fun e => negb (informational e)) events) (w', s)).
Proof.
  induction events as [|e events IH]; intros w w' s Hw.
  - cbn. now split.
  - cbn [filter run]. destruct (informational e) eqn:He; cbn [negb].
    + destruct (step_informational e w s He) as (w1 & Hstep & Hw1).
      rewrite Hstep. cbn [bind]. apply IH.
      unfold same_but_console in *. intuition congruence.
    + cbn [run]. pose proof (step_agrees e w w' s Hw) as Hstep.
      destruct (step e (w, s)) as [[w1 s1]|err], (step e (w', s)) as [[w2 s2]|err'];
        cbn in Hstep; try contradiction; cbn [bind]; [|exact I].
      destruct Hstep as [<- Hw12]. now apply IH.
Qed.

(** Progress reports and [loadingManager.onError] only write to the console:
    deleting every such event from a run changes neither whether the run
    throws nor the variables it ends with nor anything of the page but the
    console. *)
Theorem console_events_do_not_interfere
        (events : list (Event num)) (w : World num) (s : Session num) :
  agree (run events (w, s))
        (run (filter (fun e => negb (informational e)) events) (w, s)).
Proof. apply run_agrees. repeat split. Qed.

End Console.

(** ** A container of size zero *)

(** A hidden container measures 0 by 0.  Neither start-up nor the resize
    handler guards the division: the camera aspect becomes 0 / 0, which is
    NaN, and the renderer is sized 0 by 0. *)
Theorem zero_sized_container_gives_NaN_aspect
        (fsin fcos : float -> float) (els : list Element) (inner : float)
        (mm rs : list Listener) (con : list (LogEntry float)) (n : nat)
        (b : Built float) (slot : option (Object3D float)) (mx hx : float) (id : Listener) :
  let hidden := mkContainer els 0%float 0%float in
  (exists b',
      @onWindowResize float (Float64 fsin fcos) (mkWorld (Some hidden) inner mm rs con n)
                      (mkSession (Some b) slot mx hx id)
      = Returned (mkSession (Some b') slot mx hx id)
      /\ PrimFloat.is_nan (aspect (camera b')) = true
      /\ size (renderer b') = (0%float, 0%float))
  /\ PrimFloat.is_nan (aspect (camera (snd (@build float (Float64 fsin fcos) id hidden)))) = true.
Proof.
  intros hidden. split.
  - eexists. split; [reflexivity|]. split; reflexivity.
  - destruct (@build_stage float (Float64 fsin fcos) id hidden) as (_ & Haspect & _).
    rewrite Haspect. reflexivity.
Qed.

(** ** Instances *)

Lemma revisited_listeners :
  Forall (fun l => l < closures revisited) (mousemove revisited)
  /\ Forall (fun l => l < closures revisited) (resize revisited).
Proof. split; repeat constructor. Defined.

Lemma boot_builds_the_scene_witness :
  exists b,
    built (snd (@boot R Exact revisited)) = Some b
    /\ container (fst (@boot R Exact revisited))
       = Some (mkContainer [Canvas (self (snd (@boot R Exact revisited)))]
                           (clientWidth shelf) (clientHeight shelf))
    /\ size (renderer b) = (clientWidth shelf, clientHeight shelf)
    /\ aspect (camera b) = @ndiv R Exact (clientWidth shelf) (clientHeight shelf)
    /\ cposition (camera b)
       = mkVector3 (@lit R Exact 30) (@lit R Exact 30) (@lit R Exact 120)
    /\ children (scene b) = [WaterNode; SkyNode]
    /\ sceneEnv b = []
    /\ environment (scene b) = Some 0
    /\ gpu b = [FromScene 0 [SkyNode]]
    /\ textureLoad b = Pending
    /\ modelLoad b = Pending
    /\ modelT (snd (@boot R Exact revisited)) = None
    /\ console (fst (@boot R Exact revisited)) = console revisited.
Proof. exact (@boot_builds_the_scene R Exact revisited shelf eq_refl). Defined.

Lemma mount_then_cleanup_empties_the_container_witness :
  exists w1 s1 w2 s2,
    @Jsx.useEffect R Exact revisited = (w1, Some s1)
    /\ Jsx.cleanup (w1, s1) = (w2, s2)
    /\ container w2 = Some (mkContainer [] (clientWidth shelf) (clientHeight shelf))
    /\ mousemove w2 = mousemove revisited
    /\ resize w2 = resize revisited
    /\ console w2 = console revisited
    /\ innerWidth w2 = innerWidth revisited
    /\ looping s2 = false.
Proof.
  exact (@mount_then_cleanup_empties_the_container R Exact revisited shelf eq_refl
           (proj1 revisited_listeners) (proj2 revisited_listeners)).
Defined.

Lemma loaded_model_stays_anchored_witness :
  exists st b m,
    @run R Exact
         ([AnimationFrame 0%R; ModelProgress 10%R 100%R]
          ++ ModelLoaded (mkObject3D 7 (mkVector3 1 2 3) (mkVector3 0 0 0) (mkVector3 1 1 1))%R
          :: [AnimationFrame 17%R; ModelError; AnimationFrame 33%R])
         (@boot R Exact revisited) = Returned st
    /\ built (snd st) = Some b
    /\ modelLoad b = Loaded
    /\ modelT (snd st) = Some m
    /\ @anchored R Exact
         (mkObject3D 7 (mkVector3 1 2 3) (mkVector3 0 0 0) (mkVector3 1 1 1))%R m
    /\ children (scene b)
       = [WaterNode; SkyNode;
          ModelNode (uuid (mkObject3D 7 (mkVector3 1 2 3) (mkVector3 0 0 0)
                                        (mkVector3 1 1 1))%R)].
Proof.
  exact (@loaded_model_stays_anchored R Exact revisited shelf
           [AnimationFrame 0%R; ModelProgress 10%R 100%R]
           [AnimationFrame 17%R; ModelError; AnimationFrame 33%R]
           (mkObject3D 7 (mkVector3 1 2 3) (mkVector3 0 0 0) (mkVector3 1 1 1))%R
           eq_refl eq_refl).
Defined.

(** ** The normal map *)

Section Normals.

Context {num : Type} {JS : JSNumber num}.
Local Open Scope js_scope.

Lemma step_wraps (e : Event num) (w : World num) (s : Session num) (b : Built num) :
  built s = Some b ->
  wraps_as_loaded b ->
  match step e (w, s) with
  | Returned (_, s') => exists b', built s' = Some b' /\ wraps_as_loaded b'
  | Threw _ => True
  end.
Proof.
  destruct w as [co iw mm rs con n], s as [bo slot mx hx id]. cbn [built].
  intros -> Hwrap.
  destruct b as [cam sc rend wat sn sk env rt tg tl ml calls].
  destruct wat as [tv sd tex rx]. unfold wraps_as_loaded in *. cbn in Hwrap.
  destruct co as [c|]; destruct tl; destruct e;
    unfold step, onWindowResize, resized, loading, looping, settle, animate, render,
           onModelLoad; cbn;
    repeat match goal with
           | |- context [if ?c then _ else _] => destruct c; cbn
           end;
    eexists; (split; [reflexivity | cbn; first [exact Hwrap | reflexivity]]).
Qed.

Lemma run_wraps (events : list (Event num)) :
  forall (st : World num * Session num) (b : Built num),
    built (snd st) = Some b ->
    animationLoop (renderer b) = true ->
    registered (self (snd st)) (mousemove (fst st)) = true ->
    wraps_as_loaded b ->
    exists st' b', run events st = Returned st' /\ built (snd st') = Some b' /\ wraps_as_loaded b'.
Proof.
  induction events as [|e events IH]; intros st b Hb Hloop Hreg Hwrap.
  - now exists st, b.
  - destruct (step_running e st b Hb Hloop Hreg)
      as (st1 & b1 & Hstep & Hb1 & Hloop1 & Hreg1 & _).
    pose proof (step_wraps e (fst st) (snd st) b Hb Hwrap) as Hkeep.
    rewrite <- surjective_pairing, Hstep in Hkeep.
    destruct st1 as [w1 s1]. destruct Hkeep as (b1' & Hb1' & Hwrap1).
    cbn [snd] in Hb1. rewrite Hb1 in Hb1'. injection Hb1' as <-.
    destruct (IH (w1, s1) b1 Hb1 Hloop1 Hreg1 Hwrap1) as (st2 & b2 & Hrun & Hrest).
    exists st2, b2. cbn [run]. rewrite Hstep. now split.
Qed.

(** On a page with the container, after any run of events: the water's normal
    map has repeat wrapping on both axes if its load has succeeded, and the
    wrapping it was created with if the load is still in flight or has
    failed; the run returns either way. *)
Theorem normal_map_repeats_only_after_success
        (w : World num) (c : Container num) (events : list (Event num)) :
  container w = Some c ->
  exists st b,
    run events (boot w) = Returned st
    /\ built (snd st) = Some b
    /\ wraps_as_loaded b.
Proof.
  intros Hc. destruct (boot_running w c Hc) as (b0 & Hb0 & Hloop0 & Hreg0).
  apply (run_wraps events (boot w) b0 Hb0 Hloop0 Hreg0).
  rewrite (boot_eq w c Hc) in Hb0. cbn in Hb0. injection Hb0 as <-.
  destruct c as [[|x els] cw ch]; reflexivity.
Qed.

End Normals.

Lemma normal_map_repeats_only_after_success_witness :
  exists st b,
    @run R Exact [TextureProgress 1%R 2%R; TextureLoaded; TextureError; AnimationFrame 0%R]
         (@boot R Exact revisited) = Returned st
    /\ built (snd st) = Some b
    /\ wraps_as_loaded b.
Proof.
  exact (@normal_map_repeats_only_after_success R Exact revisited shelf
           [TextureProgress 1%R 2%R; TextureLoaded; TextureError; AnimationFrame 0%R] eq_refl).
Defined.
